(** * heapprofd static client bootstrap: [src/profiling/memory/client_ext_static.cc]

    The file forks a private heapprofd daemon when the library is loaded
    ([ForkHeapprofd]), keeps one control socket pair between the profiled
    process and the daemon, watches that socket on a detached thread
    ([MonitorFd]) and, for every profiling session, passes a fresh socket to
    the daemon ([ConstructClient]).

    Every function of the file is a sequence of calls into code that lives
    elsewhere (the kernel, [base::UnixSocketRaw], the producer, the task
    runner).  The embedding therefore runs each function in a small state
    monad whose state is the part of the process the file touches: the
    descriptor table, the global [g_client_sock], the started threads and the
    log of calls made, in program order.  What a call returns is supplied by
    an environment record, one field per call whose result the code reads. *)

From stdpp Require Import base option list gmap strings.
From Stdlib Require Import ZArith Lia.

Local Open Scope Z_scope.

(** ** Data *)

(** Modelled from the spec: [base::ScopedFile], declared outside this file,
    owns one descriptor; [-1] is the value of one that holds nothing. *)
Definition kInvalidFd : Z := -1.

(** Modelled from the spec: [base::UnixSocketRaw], declared outside this
    file, is one endpoint of a local socket: a wrapper around one owned
    descriptor.  The default-constructed socket holds no descriptor. *)
Record UnixSocketRaw := { fd_ : Z }.

Definition UnixSocketRaw_default : UnixSocketRaw := {| fd_ := kInvalidFd |}.

(** [explicit operator bool]: the socket holds a descriptor. *)
Definition sock_valid (s : UnixSocketRaw) : bool := negb (fd_ s =? kInvalidFd).

(** What a descriptor of the process refers to. *)
Inductive file :=
| Inherited (n : Z)   (* whatever the profiled process had open on [n] *)
| DevNull             (* the result of [open("/dev/null")] *)
| SockEnd (n : Z).    (* the endpoint a socket-pair creation returned on [n] *)

Record open_file := { of_what : file; of_nonblock : bool }.

(** The two function pointers handed to [heapprofd_init_session]. *)
Inductive fnptr := fn_malloc | fn_free | fn_other (n : Z).

Definition STDIN_FILENO : Z := 0.
Definition STDOUT_FILENO : Z := 1.
Definition STDERR_FILENO : Z := 2.

(** The calls the file makes and its two stores through [g_client_sock], as
    they appear in the log. *)
Inductive event :=
| Ev_getpid
| Ev_GetCmdlineForPID (pid : Z)
| Ev_ELOG (msg : string)
| Ev_PLOG (msg : string)
| Ev_LOG (msg : string)
| Ev_new_client_sock                      (* g_client_sock = new UnixSocketRaw() *)
| Ev_CreatePair
| Ev_fork
| Ev_waitpid (pid : Z)
| Ev_assign_client_sock (fd : Z)          (* *g_client_sock = std::move(cli_sock) *)
| Ev_thread_MonitorFd                     (* std::thread th(MonitorFd) *)
| Ev_thread_detach
| Ev_daemon (nochdir noclose : Z)
| Ev_ReleaseFd (fd : Z)
| Ev_open (path : string)
| Ev_dup2 (oldfd newfd : Z)
| Ev_close (fd : Z)
| Ev_SetBlocking (fd : Z) (blocking : bool)
| Ev_TaskRunner_ctor
| Ev_Watchdog_Start
| Ev_Producer_ctor
| Ev_SetTargetProcess (pid : Z) (cmdline : string)
| Ev_ConnectWithRetries
| Ev_SetDataSourceCallback
| Ev_AddFileDescriptorWatch (fd : Z)
| Ev_TaskRunner_Run
| Ev_Receive (fd : Z) (len : Z) (max_files : Z)
| Ev_Send (fd : Z) (msg : string) (len : Z) (fds : list Z)
| Ev_heapprofd_init_session (alloc dealloc : fnptr)
| Ev_AdoptSocket (fd : Z)
| Ev_CreateAndHandshake (fd : Z)
| Ev_exit (code : Z).

Global Instance fnptr_eq_dec : EqDecision fnptr.
Proof. solve_decision. Defined.

Global Instance event_eq_dec : EqDecision event.
Proof. solve_decision. Defined.

(** The threads the file starts. *)
Inductive thread_fn := Thread_MonitorFd.

(** The state of the running process, as far as this file reads or writes
    it.  [g_client_sock] is a raw pointer: [None] is the null pointer it is
    before the constructor function has run. *)
Record world := {
  fds : gmap Z open_file;
  g_client_sock : option UnixSocketRaw;
  threads : list thread_fn;
  trace : list event;
}.

(** ** The monad *)

Inductive fault := NullDeref | DcheckFailed.

(** A computation returns, leaves the process through [_exit], or faults. *)
Inductive outcome (A : Type) :=
| Ret (a : A)
| Exit (code : Z)
| Fault (f : fault).
Arguments Ret {A} a.
Arguments Exit {A} code.
Arguments Fault {A} f.

Definition M (A : Type) : Type := world → outcome A * world.

Global Instance M_ret : MRet M := λ A a w, (Ret a, w).

Global Instance M_bind : MBind M := λ A B k m w,
  match m w with
  | (Ret a, w') => k a w'
  | (Exit c, w') => (Exit c, w')
  | (Fault f, w') => (Fault f, w')
  end.

Definition emit (e : event) : M unit := λ w,
  (Ret tt, {| fds := fds w; g_client_sock := g_client_sock w;
              threads := threads w; trace := trace w ++ [e] |}).

Definition set_fds (f : gmap Z open_file → gmap Z open_file) : M unit := λ w,
  (Ret tt, {| fds := f (fds w); g_client_sock := g_client_sock w;
              threads := threads w; trace := trace w |}).

Definition set_client_sock (p : option UnixSocketRaw) : M unit := λ w,
  (Ret tt, {| fds := fds w; g_client_sock := p;
              threads := threads w; trace := trace w |}).

Definition add_thread (t : thread_fn) : M unit := λ w,
  (Ret tt, {| fds := fds w; g_client_sock := g_client_sock w;
              threads := threads w ++ [t]; trace := trace w |}).

Definition get_fds : M (gmap Z open_file) := λ w, (Ret (fds w), w).

Definition fail {A} (f : fault) : M A := λ w, (Fault f, w).

(** [g_client_sock->...]: dereferencing the null pointer is a fault. *)
Definition deref_client_sock : M UnixSocketRaw := λ w,
  match g_client_sock w with
  | Some s => (Ret s, w)
  | None => (Fault NullDeref, w)
  end.

(** [PERFETTO_DCHECK]: a failed check aborts (debug builds). *)
Definition DCHECK (b : bool) : M unit :=
  if b then mret tt else fail DcheckFailed.

(** [_exit(code)] *)
Definition sys_exit {A} (code : Z) : M A := λ w,
  (Exit code, {| fds := fds w; g_client_sock := g_client_sock w;
                 threads := threads w; trace := trace w ++ [Ev_exit code] |}).

Definition when (b : bool) (m : M unit) : M unit := if b then m else mret tt.

(** ** The primitives the file calls *)

(** [close(fd)]: the descriptor leaves the table (nothing happens to the
    table when it was not open). *)
Definition sys_close (fd : Z) : M unit :=
  emit (Ev_close fd);; set_fds (delete fd).

(** [open("/dev/null", O_RDWR)]: [res] is what the call returns, a fresh
    descriptor or [-1]. *)
Definition sys_open_devnull (res : Z) : M Z :=
  emit (Ev_open "/dev/null");;
  when (0 <=? res)
       (set_fds (insert res {| of_what := DevNull; of_nonblock := false |}));;
  mret res.

(** [dup2(oldfd, newfd)]: [newfd] now refers to what [oldfd] refers to; the
    call fails and changes nothing when [oldfd] is not open. *)
Definition sys_dup2 (oldfd newfd : Z) : M unit :=
  emit (Ev_dup2 oldfd newfd);;
  set_fds (λ t, match t !! oldfd with
                | Some e => <[newfd := e]> t
                | None => t
                end).

(** Modelled from the spec: the destructor of [base::ScopedFile] closes the
    descriptor it holds, if it holds one. *)
Definition ScopedFile_dtor (fd : Z) : M unit :=
  when (negb (fd =? kInvalidFd)) (sys_close fd).

(** Modelled from the spec: the destructor of [base::UnixSocketRaw] destroys
    the [ScopedFile] inside.  Move assignment to a socket does the same to
    the descriptor the target held before. *)
Definition UnixSocketRaw_dtor (s : UnixSocketRaw) : M unit :=
  ScopedFile_dtor (fd_ s).

(** A descriptor that socket-pair creation returned enters the table. *)
Definition register_endpoint (s : UnixSocketRaw) (nonblock : bool) : M unit :=
  when (sock_valid s)
       (set_fds (insert (fd_ s) {| of_what := SockEnd (fd_ s);
                                   of_nonblock := nonblock |})).

(** Modelled from the spec: [UnixSocketRaw::CreatePair(kUnix, kStream)]
    "returns two connected local endpoints or an explicit failure".  [res]
    is the pair the call returns and [nonblock] the mode its endpoints are
    created in; the endpoints are new entries of the descriptor table. *)
Definition CreatePair (res : UnixSocketRaw * UnixSocketRaw) (nonblock : bool)
  : M (UnixSocketRaw * UnixSocketRaw) :=
  emit Ev_CreatePair;;
  register_endpoint (fst res) nonblock;;
  register_endpoint (snd res) nonblock;;
  mret res.

(** Modelled from the spec: [s.ReleaseFd()], "descriptor release (detach
    without closing)", hands out the descriptor as a [ScopedFile] and leaves
    the wrapper empty. *)
Definition ReleaseFd (s : UnixSocketRaw) : M (Z * UnixSocketRaw) :=
  emit (Ev_ReleaseFd (fd_ s));;
  mret (fd_ s, UnixSocketRaw_default).

(** Modelled from the spec: [s.SetBlocking(b)], the "blocking-mode toggle"
    of an endpoint. *)
Definition SetBlocking (s : UnixSocketRaw) (b : bool) : M unit :=
  emit (Ev_SetBlocking (fd_ s) b);;
  set_fds (alter (λ e, {| of_what := of_what e; of_nonblock := negb b |})
                 (fd_ s)).

(** Modelled from the spec: [s.IsBlocking()] reads the mode of the
    endpoint. *)
Definition IsBlocking (s : UnixSocketRaw) : M bool :=
  t ← get_fds;
  mret (match t !! fd_ s with
        | Some e => negb (of_nonblock e)
        | None => false
        end).

(** Modelled from the spec: [s.Send(msg, len, fds, n)], "byte send with at
    most one accompanying open descriptor"; [res] is the byte count the call
    returns, [-1] on failure. *)
Definition Send (s : UnixSocketRaw) (msg : string) (len : Z) (fdv : list Z)
    (res : Z) : M Z :=
  emit (Ev_Send (fd_ s) msg len fdv);; mret res.

(** Modelled from the spec: what [s.Receive(buf, len, &fd, max_files)]
    hands back, the byte count or [-1], [errno], and the [ScopedFile] it
    filled in ([-1] when no descriptor came with the data). *)
Record recv_result := {
  rr_ret : Z;
  rr_errno : Z;
  rr_fd : Z;
}.

Definition Receive (s : UnixSocketRaw) (len max_files : Z) (res : recv_result)
  : M recv_result :=
  emit (Ev_Receive (fd_ s) len max_files);; mret res.

Definition EAGAIN : Z := 11.
Definition EWOULDBLOCK : Z := 11.

(** Modelled from the spec: [base::IsAgain(errno)] tells the would-block
    errors. *)
Definition IsAgain (e : Z) : bool := (e =? EAGAIN) || (e =? EWOULDBLOCK).

(** ** [MonitorFd] *)

Inductive loop_ctl := LoopContinue | LoopBreak.

(** One pass through the body of the [for (;;)] loop; [rx] is what the
    blocking [Receive] of this pass returns. *)
Definition MonitorFd_iteration (rx : recv_result) : M loop_ctl :=
  s ← deref_client_sock;
  res ← Receive s 1 0 rx;
  let r := rr_ret res in
  if 1 <=? r then
    emit (Ev_heapprofd_init_session fn_malloc fn_free);; mret LoopContinue
  else if r =? 0 then
    emit (Ev_ELOG "Server disconneced.");; mret LoopBreak
  else
    emit (Ev_PLOG "Receive failed.");; mret LoopContinue.

(** The thread either has left the loop or sits in the next [Receive]. *)
Inductive monitor_status := MonitorReturned | MonitorReceiving.

(** The loop, driven by the results of the successive [Receive] calls. *)
Fixpoint MonitorFd_loop (rxs : list recv_result) : M monitor_status :=
  match rxs with
  | [] => mret MonitorReceiving
  | rx :: rxs' =>
      c ← MonitorFd_iteration rx;
      match c with
      | LoopBreak => mret MonitorReturned
      | LoopContinue => MonitorFd_loop rxs'
      end
  end.

Definition MonitorFd (rxs : list recv_result) : M monitor_status :=
  s ← deref_client_sock;
  b ← IsBlocking s;
  DCHECK b;;
  MonitorFd_loop rxs.

(** ** [ForkHeapprofd] *)

(** What the calls of [ForkHeapprofd] return. *)
Record bootstrap_env := {
  be_pid : Z;                                (* getpid() *)
  be_cmdline : bool * string;                (* GetCmdlineForPID: result, string *)
  be_pair : UnixSocketRaw * UnixSocketRaw;   (* CreatePair: (cli, srv) *)
  be_pair_nonblock : bool;                   (* ... created non-blocking? *)
  be_fork : Z;                               (* fork() *)
  be_waitpid : Z;                            (* PERFETTO_EINTR(waitpid(..)) *)
  be_open : Z;                               (* open("/dev/null", O_RDWR) *)
}.

(** [for (int i = lo; ...; ++i) if (i != keep) close(i);], [n] passes. *)
Fixpoint close_scan (n : nat) (i : Z) (keep : Z) : M unit :=
  match n with
  | O => mret tt
  | S n' =>
      when (negb (i =? keep)) (sys_close i);;
      close_scan n' (i + 1) keep
  end.

Definition kFdCeiling : Z := 512.

(** [for (int i = STDERR_FILENO + 1; i < 512; ++i) ...] *)
Definition close_inherited (keep : Z) : M unit :=
  close_scan (Z.to_nat (kFdCeiling - (STDERR_FILENO + 1)))
             (STDERR_FILENO + 1) keep.

(** The function either returns to its caller or, in the daemon, enters
    [task_runner.Run()]. *)
Inductive bootstrap_result := BootstrapReturned | DaemonEventLoop.

(** The daemon side, from [daemon()] to [task_runner.Run()]. *)
Definition ForkHeapprofd_child (pid : Z) (cmdline : string)
    (cli_sock srv_sock : UnixSocketRaw) (open_res : Z) : M bootstrap_result :=
  emit (Ev_daemon 0 1);;
  '(released, _) ← ReleaseFd cli_sock;
  ScopedFile_dtor released;;   (* the temporary dies with the statement *)
  null ← sys_open_devnull open_res;
  sys_dup2 null STDIN_FILENO;;
  sys_dup2 null STDOUT_FILENO;;
  when (STDERR_FILENO <? null) (sys_close null);;
  close_inherited (fd_ srv_sock);;
  SetBlocking srv_sock false;;
  emit Ev_TaskRunner_ctor;;
  emit Ev_Watchdog_Start;;
  emit Ev_Producer_ctor;;
  emit (Ev_SetTargetProcess pid cmdline);;
  emit Ev_ConnectWithRetries;;
  emit Ev_SetDataSourceCallback;;
  emit (Ev_AddFileDescriptorWatch (fd_ srv_sock));;
  emit Ev_TaskRunner_Run;;
  mret DaemonEventLoop.

(** The profiled-process side after a successful [fork()]. *)
Definition ForkHeapprofd_parent (f waitpid_res : Z)
    (cli_sock srv_sock : UnixSocketRaw) : M bootstrap_result :=
  emit (Ev_waitpid f);;
  when (waitpid_res =? -1) (emit (Ev_PLOG "waitpid"));;
  old ← deref_client_sock;
  emit (Ev_assign_client_sock (fd_ cli_sock));;
  UnixSocketRaw_dtor old;;     (* move assignment drops what was held *)
  set_client_sock (Some cli_sock);;
  emit Ev_thread_MonitorFd;;
  add_thread Thread_MonitorFd;;
  emit Ev_thread_detach;;
  UnixSocketRaw_dtor UnixSocketRaw_default;;   (* cli_sock, moved from *)
  UnixSocketRaw_dtor srv_sock;;
  mret BootstrapReturned.

Definition ForkHeapprofd (env : bootstrap_env) : M bootstrap_result :=
  emit Ev_getpid;;
  let pid := be_pid env in
  emit (Ev_GetCmdlineForPID pid);;
  let cmdline := snd (be_cmdline env) in
  when (negb (fst (be_cmdline env))) (emit (Ev_ELOG "Failed to get cmdline."));;
  emit Ev_new_client_sock;;
  set_client_sock (Some UnixSocketRaw_default);;
  '(cli_sock, srv_sock) ← CreatePair (be_pair env) (be_pair_nonblock env);
  if negb (sock_valid cli_sock) || negb (sock_valid srv_sock) then
    emit (Ev_ELOG "Failed to create socket pair.");;
    UnixSocketRaw_dtor cli_sock;;
    UnixSocketRaw_dtor srv_sock;;
    mret BootstrapReturned
  else
    emit Ev_fork;;
    let f := be_fork env in
    if f =? -1 then
      emit (Ev_PLOG "fork");;
      UnixSocketRaw_dtor cli_sock;;
      UnixSocketRaw_dtor srv_sock;;
      mret BootstrapReturned
    else if negb (f =? 0) then
      ForkHeapprofd_parent f (be_waitpid env) cli_sock srv_sock
    else
      ForkHeapprofd_child pid cmdline cli_sock srv_sock (be_open env).

(** ** The daemon's callbacks *)

(** [[&srv_sock] { srv_sock.Send("x", 1); }] *)
Definition data_source_callback (srv_sock : UnixSocketRaw) (send_res : Z)
  : M unit :=
  Send srv_sock "x" 1 [] send_res;; mret tt.

(** The descriptor watch on [srv_sock.fd()]; [rx] is what [Receive] returns.
    The received [ScopedFile] is [rr_fd], [-1] when none came. *)
Definition fd_watch_callback (srv_sock : UnixSocketRaw) (rx : recv_result)
  : M unit :=
  res ← Receive srv_sock 1 1 rx;
  let r := rr_ret res in
  when (r =? 0) (emit (Ev_LOG "Child disconnected.");; sys_exit 0);;
  when ((r =? -1) && negb (IsAgain (rr_errno res))) (emit (Ev_PLOG "Receive"));;
  if negb (rr_fd res =? kInvalidFd) then
    emit (Ev_AdoptSocket (rr_fd res))
  else
    ScopedFile_dtor (rr_fd res).

(** The event loop firing the watch once per entry of [rxs]. *)
Fixpoint run_fd_watch (srv_sock : UnixSocketRaw) (rxs : list recv_result)
  : M unit :=
  match rxs with
  | [] => mret tt
  | rx :: rxs' => fd_watch_callback srv_sock rx;; run_fd_watch srv_sock rxs'
  end.

(** ** [ConstructClient] *)

(** Modelled from the spec: the client-side session object, built from an
    endpoint and an allocator. *)
Record Client := { client_sock : UnixSocketRaw; client_alloc : Z }.

(** Modelled from the spec: [Client::CreateAndHandshake(sock, alloc)]
    returns "a shared/owned handle or a failure".  [ok] tells whether the
    handshake succeeds.  The socket is passed by value: when the handshake
    succeeds the client owns it; when it fails the result is the null
    pointer and the socket is destroyed with the call, which closes its
    descriptor. *)
Definition CreateAndHandshake (sock : UnixSocketRaw) (alloc : Z) (ok : bool)
  : M (option Client) :=
  emit (Ev_CreateAndHandshake (fd_ sock));;
  if ok then mret (Some {| client_sock := sock; client_alloc := alloc |})
  else UnixSocketRaw_dtor sock;; mret None.

(** What the calls of [ConstructClient] return. *)
Record session_env := {
  se_pair : UnixSocketRaw * UnixSocketRaw;   (* CreatePair: (srv, client) *)
  se_pair_nonblock : bool;                   (* ... created non-blocking? *)
  se_send : Z;                               (* g_client_sock->Send(..) *)
  se_handshake : bool;                       (* CreateAndHandshake succeeds *)
}.

Definition ConstructClient (unhooked_allocator : Z) (env : session_env)
  : M (option Client) :=
  '(srv_session_sock, client_session_sock) ←
    CreatePair (se_pair env) (se_pair_nonblock env);
  if negb (sock_valid client_session_sock)
     || negb (sock_valid srv_session_sock) then
    emit (Ev_ELOG "Failed to create socket pair.");;
    UnixSocketRaw_dtor client_session_sock;;
    UnixSocketRaw_dtor srv_session_sock;;
    mret None
  else
    '(srv_fd, srv_session_sock) ← ReleaseFd srv_session_sock;
    let fd := srv_fd in
    g ← deref_client_sock;
    Send g " " 1 [fd] (se_send env);;
    client ← CreateAndHandshake client_session_sock unhooked_allocator
                                (se_handshake env);
    ScopedFile_dtor srv_fd;;
    UnixSocketRaw_dtor UnixSocketRaw_default;;   (* client_session_sock, moved from *)
    UnixSocketRaw_dtor srv_session_sock;;
    mret client.

(** ** Worlds and logs, for the statements *)

(** The world [w] with the descriptor table replaced and [es] logged. *)
Definition after (w : world) (t : gmap Z open_file) (es : list event) : world :=
  {| fds := t; g_client_sock := g_client_sock w;
     threads := threads w; trace := trace w ++ es |}.

(** The world [w] with [es] logged and nothing else changed. *)
Definition logged (w : world) (es : list event) : world := after w (fds w) es.

Definition sock_entry (s : UnixSocketRaw) (nonblock : bool) : open_file :=
  {| of_what := SockEnd (fd_ s); of_nonblock := nonblock |}.

Definition devnull_entry : open_file :=
  {| of_what := DevNull; of_nonblock := false |}.


(** The [Send] calls of a log. *)
Definition is_Send (e : event) : bool :=
  match e with Ev_Send _ _ _ _ => true | _ => false end.

Definition sends (tr : list event) : list event := List.filter is_Send tr.

(** The [close] a destructor makes for the socket [s], if any. *)
Definition dtor_events (s : UnixSocketRaw) : list event :=
  if sock_valid s then [Ev_close (fd_ s)] else [].

(** ** Sample worlds and environments *)

Definition inherited_entry (n : Z) : open_file :=
  {| of_what := Inherited n; of_nonblock := false |}.

(** A process with the three standard descriptors, before the constructor
    function has run. *)
Definition fresh_world : world :=
  {| fds := {[ 0 := inherited_entry 0; 1 := inherited_entry 1;
               2 := inherited_entry 2 ]};
     g_client_sock := None; threads := []; trace := [] |}.

(** The profiled process once the bootstrap has succeeded with the control
    socket on descriptor 3. *)
Definition booted_world : world :=
  {| fds := {[ 0 := inherited_entry 0; 1 := inherited_entry 1;
               2 := inherited_entry 2; 3 := sock_entry {| fd_ := 3 |} false ]};
     g_client_sock := Some {| fd_ := 3 |};
     threads := [Thread_MonitorFd]; trace := [] |}.

(** A session whose socket pair lands on descriptors 5 and 6. *)
Definition session_ok : session_env :=
  {| se_pair := ({| fd_ := 5 |}, {| fd_ := 6 |}); se_pair_nonblock := false;
     se_send := 1; se_handshake := true |}.

(** A session whose socket pair cannot be created. *)
Definition session_no_pair : session_env :=
  {| se_pair := (UnixSocketRaw_default, UnixSocketRaw_default);
     se_pair_nonblock := false; se_send := 1; se_handshake := true |}.

(** A session whose handshake fails. *)
Definition session_handshake_fails : session_env :=
  {| se_pair := ({| fd_ := 5 |}, {| fd_ := 6 |}); se_pair_nonblock := false;
     se_send := 1; se_handshake := false |}.

(** A session started when nobody holds the other end of the control
    socket: the send fails and so does the handshake. *)
Definition session_no_daemon : session_env :=
  {| se_pair := ({| fd_ := 5 |}, {| fd_ := 6 |}); se_pair_nonblock := false;
     se_send := -1; se_handshake := false |}.

(** What [ConstructClient] logs once the session pair [(srv, cli)] exists,
    [g] being what [g_client_sock] points to. *)
Definition session_events (g srv cli : UnixSocketRaw) (ok : bool)
  : list event :=
  [Ev_CreatePair; Ev_ReleaseFd (fd_ srv); Ev_Send (fd_ g) " " 1 [fd_ srv];
   Ev_CreateAndHandshake (fd_ cli)]
  ++ (if ok then [] else [Ev_close (fd_ cli)])
  ++ [Ev_close (fd_ srv)].

(** The calls of [heapprofd_init_session] in a log. *)
Definition is_init_session (e : event) : bool :=
  match e with Ev_heapprofd_init_session _ _ => true | _ => false end.

Definition init_calls (tr : list event) : nat :=
  length (List.filter is_init_session tr).

(** The receipts of at least one byte that [MonitorFd] sees before the first
    receipt of zero bytes. *)
Fixpoint signals_before_disconnect (rxs : list recv_result) : nat :=
  match rxs with
  | [] => O
  | rx :: rxs' =>
      if rr_ret rx =? 0 then O
      else if 1 <=? rr_ret rx then S (signals_before_disconnect rxs')
      else signals_before_disconnect rxs'
  end.

(** The bytes those receipts deliver. *)
Fixpoint bytes_before_disconnect (rxs : list recv_result) : Z :=
  match rxs with
  | [] => 0
  | rx :: rxs' =>
      if rr_ret rx =? 0 then 0
      else Z.max 0 (rr_ret rx) + bytes_before_disconnect rxs'
  end.

Definition rx_byte : recv_result :=
  {| rr_ret := 1; rr_errno := 0; rr_fd := kInvalidFd |}.
Definition rx_eof : recv_result :=
  {| rr_ret := 0; rr_errno := 0; rr_fd := kInvalidFd |}.
Definition rx_error (errno : Z) : recv_result :=
  {| rr_ret := -1; rr_errno := errno; rr_fd := kInvalidFd |}.
Definition rx_byte_with_fd (fd : Z) : recv_result :=
  {| rr_ret := 1; rr_errno := 0; rr_fd := fd |}.

(** What the descriptor watch logs before it looks at the received
    descriptor, on a read that is not the zero-byte one. *)
Definition receive_log (srv : UnixSocketRaw) (rx : recv_result) : list event :=
  Ev_Receive (fd_ srv) 1 1
  :: (if (rr_ret rx =? -1) && negb (IsAgain (rr_errno rx))
      then [Ev_PLOG "Receive"] else []).

(** ** The bootstrap, for the statements *)

(** The calls every run of [ForkHeapprofd] starts with. *)
Definition prologue (env : bootstrap_env) : list event :=
  [Ev_getpid; Ev_GetCmdlineForPID (be_pid env)]
  ++ (if fst (be_cmdline env) then [] else [Ev_ELOG "Failed to get cmdline."])
  ++ [Ev_new_client_sock; Ev_CreatePair].

(** The descriptor table once both endpoints of the control pair exist. *)
Definition pair_fds (cli srv : UnixSocketRaw) (nonblock : bool)
    (t : gmap Z open_file) : gmap Z open_file :=
  <[fd_ srv := sock_entry srv nonblock]> (<[fd_ cli := sock_entry cli nonblock]> t).

(** The descriptors the scan [close_scan n i keep] closes, in order. *)
Fixpoint scan_targets (n : nat) (i keep : Z) : list Z :=
  match n with
  | O => []
  | S n' => (if i =? keep then [] else [i]) ++ scan_targets n' (i + 1) keep
  end.

Definition inherited_targets (keep : Z) : list Z :=
  scan_targets (Z.to_nat (kFdCeiling - (STDERR_FILENO + 1)))
               (STDERR_FILENO + 1) keep.

Definition close_all (l : list Z) (t : gmap Z open_file) : gmap Z open_file :=
  foldl (λ t fd, delete fd t) t l.

Definition dup_fd (oldfd newfd : Z) (t : gmap Z open_file) : gmap Z open_file :=
  match t !! oldfd with
  | Some e => <[newfd := e]> t
  | None => t
  end.

Definition set_nonblock (e : open_file) : open_file :=
  {| of_what := of_what e; of_nonblock := true |}.

(** The descriptor table of the daemon when it enters its event loop. *)
Definition child_fds (cli srv : UnixSocketRaw) (null : Z)
    (t : gmap Z open_file) : gmap Z open_file :=
  let t1 := delete (fd_ cli) t in
  let t2 := if 0 <=? null then <[null := devnull_entry]> t1 else t1 in
  let t3 := dup_fd null STDOUT_FILENO (dup_fd null STDIN_FILENO t2) in
  let t4 := if STDERR_FILENO <? null then delete null t3 else t3 in
  alter set_nonblock (fd_ srv) (close_all (inherited_targets (fd_ srv)) t4).

(** What the daemon calls before the scan, the scan, and what it calls
    after. *)
Definition child_redirect (cli : UnixSocketRaw) (null : Z) : list event :=
  [Ev_daemon 0 1; Ev_ReleaseFd (fd_ cli); Ev_close (fd_ cli);
   Ev_open "/dev/null"; Ev_dup2 null STDIN_FILENO; Ev_dup2 null STDOUT_FILENO]
  ++ (if STDERR_FILENO <? null then [Ev_close null] else []).

Definition child_scan (srv : UnixSocketRaw) : list event :=
  map Ev_close (inherited_targets (fd_ srv)).

Definition child_service (pid : Z) (cmdline : string) (srv : UnixSocketRaw)
  : list event :=
  [Ev_SetBlocking (fd_ srv) false; Ev_TaskRunner_ctor; Ev_Watchdog_Start;
   Ev_Producer_ctor; Ev_SetTargetProcess pid cmdline; Ev_ConnectWithRetries;
   Ev_SetDataSourceCallback; Ev_AddFileDescriptorWatch (fd_ srv);
   Ev_TaskRunner_Run].

(** What the profiled process calls after a successful [fork()]. *)
Definition parent_events (f waitpid_res : Z) (cli srv : UnixSocketRaw)
  : list event :=
  [Ev_waitpid f]
  ++ (if waitpid_res =? -1 then [Ev_PLOG "waitpid"] else [])
  ++ [Ev_assign_client_sock (fd_ cli); Ev_thread_MonitorFd; Ev_thread_detach;
      Ev_close (fd_ srv)].

(** The four ways through [ForkHeapprofd]. *)
Inductive bootstrap_path := PairFailed | ForkFailed | ParentPath | ChildPath.

Definition path_of (env : bootstrap_env) : bootstrap_path :=
  if negb (sock_valid (fst (be_pair env)))
     || negb (sock_valid (snd (be_pair env))) then PairFailed
  else if be_fork env =? -1 then ForkFailed
  else if negb (be_fork env =? 0) then ParentPath
  else ChildPath.

Definition register_sock (s : UnixSocketRaw) (nonblock : bool)
    (t : gmap Z open_file) : gmap Z open_file :=
  if sock_valid s then <[fd_ s := sock_entry s nonblock]> t else t.

Definition close_sock (s : UnixSocketRaw) (t : gmap Z open_file)
  : gmap Z open_file :=
  if sock_valid s then delete (fd_ s) t else t.

(** What a run of [ForkHeapprofd] returns, logs and leaves behind, as
    functions of what its calls return. *)
Definition bootstrap_outcome (env : bootstrap_env) : bootstrap_result :=
  match path_of env with
  | ChildPath => DaemonEventLoop
  | _ => BootstrapReturned
  end.

Definition bootstrap_events (env : bootstrap_env) : list event :=
  let cli := fst (be_pair env) in
  let srv := snd (be_pair env) in
  prologue env ++
  match path_of env with
  | PairFailed =>
      [Ev_ELOG "Failed to create socket pair."]
      ++ dtor_events cli ++ dtor_events srv
  | ForkFailed =>
      [Ev_fork; Ev_PLOG "fork"; Ev_close (fd_ cli); Ev_close (fd_ srv)]
  | ParentPath =>
      [Ev_fork] ++ parent_events (be_fork env) (be_waitpid env) cli srv
  | ChildPath =>
      [Ev_fork] ++ child_redirect cli (be_open env) ++ child_scan srv
      ++ child_service (be_pid env) (snd (be_cmdline env)) srv
  end.

Definition bootstrap_fds (env : bootstrap_env) (t : gmap Z open_file)
  : gmap Z open_file :=
  let cli := fst (be_pair env) in
  let srv := snd (be_pair env) in
  let nb := be_pair_nonblock env in
  match path_of env with
  | PairFailed =>
      close_sock srv (close_sock cli
        (register_sock srv nb (register_sock cli nb t)))
  | ForkFailed => delete (fd_ srv) (delete (fd_ cli) (pair_fds cli srv nb t))
  | ParentPath => delete (fd_ srv) (pair_fds cli srv nb t)
  | ChildPath => child_fds cli srv (be_open env) (pair_fds cli srv nb t)
  end.

Definition bootstrap_client_sock (env : bootstrap_env) : UnixSocketRaw :=
  match path_of env with
  | ParentPath => fst (be_pair env)
  | _ => UnixSocketRaw_default
  end.

Definition bootstrap_threads (env : bootstrap_env) : list thread_fn :=
  match path_of env with
  | ParentPath => [Thread_MonitorFd]
  | _ => []
  end.

(** The environment [env] in which [GetCmdlineForPID] succeeds. *)
Definition with_cmdline_ok (env : bootstrap_env) : bootstrap_env :=
  {| be_pid := be_pid env; be_cmdline := (true, snd (be_cmdline env));
     be_pair := be_pair env; be_pair_nonblock := be_pair_nonblock env;
     be_fork := be_fork env; be_waitpid := be_waitpid env;
     be_open := be_open env |}.

Definition is_assign (e : event) : bool :=
  match e with Ev_assign_client_sock _ => true | _ => false end.

Definition is_SetBlocking (e : event) : bool :=
  match e with Ev_SetBlocking _ _ => true | _ => false end.

(** The events a run logged on top of the log it started with. *)
Definition new_events (w w' : world) : list event :=
  drop (length (trace w)) (trace w').

(** A process that already has descriptors 7 and 600 open. *)
Definition crowded_world : world :=
  {| fds := {[ 0 := inherited_entry 0; 1 := inherited_entry 1;
               2 := inherited_entry 2; 7 := inherited_entry 7;
               600 := inherited_entry 600 ]};
     g_client_sock := None; threads := []; trace := [] |}.

(** The control pair lands on descriptors 3 and 4; [fork()] returns [f]. *)
Definition boot_env (f : Z) : bootstrap_env :=
  {| be_pid := 1234; be_cmdline := (true, "app");
     be_pair := ({| fd_ := 3 |}, {| fd_ := 4 |}); be_pair_nonblock := false;
     be_fork := f; be_waitpid := f; be_open := 3 |}.

(** The control pair lands on descriptors 3 and 4, [fork()] returns child
    77 and [waitpid] fails. *)
Definition boot_env_wait_failed : bootstrap_env :=
  {| be_pid := 1234; be_cmdline := (true, "app");
     be_pair := ({| fd_ := 3 |}, {| fd_ := 4 |}); be_pair_nonblock := false;
     be_fork := 77; be_waitpid := -1; be_open := 3 |}.

(** The control pair cannot be created, and neither can the command line
    be read. *)
Definition boot_env_no_pair : bootstrap_env :=
  {| be_pid := 1234; be_cmdline := (false, "");
     be_pair := (UnixSocketRaw_default, UnixSocketRaw_default);
     be_pair_nonblock := false;
     be_fork := 0; be_waitpid := 0; be_open := 3 |}.

(** ** The loops, for the statements *)

(** The receipts a loop reads: all of them up to and with the first one of
    zero bytes. *)
Fixpoint until_disconnect (rxs : list recv_result) : list recv_result :=
  match rxs with
  | [] => []
  | rx :: rxs' =>
      if rr_ret rx =? 0 then [rx] else rx :: until_disconnect rxs'
  end.

(** Some receipt is one of zero bytes. *)
Definition disconnects (rxs : list recv_result) : bool :=
  existsb (λ rx, rr_ret rx =? 0) rxs.

Definition is_Receive (e : event) : bool :=
  match e with Ev_Receive _ _ _ => true | _ => false end.

Definition is_close (e : event) : bool :=
  match e with Ev_close _ => true | _ => false end.

(** What [MonitorFd] may log when [g_client_sock] is [g]. *)
Definition monitor_event (g : UnixSocketRaw) (e : event) : Prop :=
  e = Ev_Receive (fd_ g) 1 0
  ∨ e = Ev_heapprofd_init_session fn_malloc fn_free
  ∨ e = Ev_ELOG "Server disconneced."
  ∨ e = Ev_PLOG "Receive failed.".

(** The descriptors handed to [producer.AdoptSocket], in the order of the
    log. *)
Definition adoptions (tr : list event) : list Z :=
  flat_map (λ e, match e with Ev_AdoptSocket fd => [fd] | _ => [] end) tr.

(** The descriptors that come with the reads before the first read of zero
    bytes. *)
Fixpoint descriptors_before_disconnect (rxs : list recv_result) : list Z :=
  match rxs with
  | [] => []
  | rx :: rxs' =>
      if rr_ret rx =? 0 then []
      else (if rr_fd rx =? kInvalidFd then [] else [rr_fd rx])
           ++ descriptors_before_disconnect rxs'
  end.

Definition rx_eof_with_fd (fd : Z) : recv_result :=
  {| rr_ret := 0; rr_errno := 0; rr_fd := fd |}.
Definition rx_error_with_fd (errno fd : Z) : recv_result :=
  {| rr_ret := -1; rr_errno := errno; rr_fd := fd |}.

(** The environment [env] with another result for [open]. *)
Definition with_open (r : Z) (env : bootstrap_env) : bootstrap_env :=
  {| be_pid := be_pid env; be_cmdline := be_cmdline env;
     be_pair := be_pair env; be_pair_nonblock := be_pair_nonblock env;
     be_fork := be_fork env; be_waitpid := be_waitpid env; be_open := r |}.

(** A process started with standard input and output closed. *)
Definition stderr_only_world : world :=
  {| fds := {[ 2 := inherited_entry 2 ]};
     g_client_sock := None; threads := []; trace := [] |}.

(** In such a process the control pair lands on descriptors 0 and 1, and
    [open], called in the child once descriptor 0 is closed again, returns
    0. *)
Definition boot_env_low : bootstrap_env :=
  {| be_pid := 1234; be_cmdline := (true, "app");
     be_pair := ({| fd_ := 0 |}, {| fd_ := 1 |}); be_pair_nonblock := false;
     be_fork := 0; be_waitpid := 0; be_open := 0 |}.
(** ** Running computations: the equations of the primitives *)

Section Run.
Context {A B C : Type}.

Lemma bind_Ret (m : M A) (k : A → M B) w a w' :
  m w = (Ret a, w') → (m ≫= k) w = k a w'.
Proof. intros H. unfold mbind, M_bind. now rewrite H. Qed.

Lemma bind_Exit (m : M A) (k : A → M B) w c w' :
  m w = (Exit c, w') → (m ≫= k) w = (Exit c, w').
Proof. intros H. unfold mbind, M_bind. now rewrite H. Qed.

Lemma bind_Fault (m : M A) (k : A → M B) w f w' :
  m w = (Fault f, w') → (m ≫= k) w = (Fault f, w').
Proof. intros H. unfold mbind, M_bind. now rewrite H. Qed.

Lemma bind_assoc_run (m : M A) (k1 : A → M B) (k2 : B → M C) w :
  ((m ≫= k1) ≫= k2) w = (m ≫= (λ x, k1 x ≫= k2)) w.
Proof. unfold mbind, M_bind. now destruct (m w) as [[a|c|f] w']. Qed.

Lemma ret_run (a : A) w : (mret a : M A) w = (Ret a, w).
Proof. reflexivity. Qed.
End Run.

Lemma emit_run e w :
  emit e w = (Ret tt, {| fds := fds w; g_client_sock := g_client_sock w;
                         threads := threads w; trace := trace w ++ [e] |}).
Proof. reflexivity. Qed.

Lemma set_fds_run f w :
  set_fds f w = (Ret tt, {| fds := f (fds w); g_client_sock := g_client_sock w;
                            threads := threads w; trace := trace w |}).
Proof. reflexivity. Qed.

Lemma set_client_sock_run p w :
  set_client_sock p w = (Ret tt, {| fds := fds w; g_client_sock := p;
                                    threads := threads w; trace := trace w |}).
Proof. reflexivity. Qed.

Lemma add_thread_run t w :
  add_thread t w = (Ret tt, {| fds := fds w; g_client_sock := g_client_sock w;
                               threads := threads w ++ [t]; trace := trace w |}).
Proof. reflexivity. Qed.

Lemma get_fds_run w : get_fds w = (Ret (fds w), w).
Proof. reflexivity. Qed.

Lemma deref_client_sock_run w s :
  g_client_sock w = Some s → deref_client_sock w = (Ret s, w).
Proof. intros H. unfold deref_client_sock. now rewrite H. Qed.

Lemma sys_close_run fd w :
  sys_close fd w =
  (Ret tt, {| fds := delete fd (fds w); g_client_sock := g_client_sock w;
              threads := threads w; trace := trace w ++ [Ev_close fd] |}).
Proof. reflexivity. Qed.

Lemma sys_dup2_run oldfd newfd w :
  sys_dup2 oldfd newfd w =
  (Ret tt, {| fds := match fds w !! oldfd with
                     | Some e => <[newfd := e]> (fds w)
                     | None => fds w
                     end;
              g_client_sock := g_client_sock w; threads := threads w;
              trace := trace w ++ [Ev_dup2 oldfd newfd] |}).
Proof. reflexivity. Qed.

Lemma sys_open_devnull_run res w :
  sys_open_devnull res w =
  (Ret res, {| fds := if 0 <=? res then <[res := devnull_entry]> (fds w)
                      else fds w;
               g_client_sock := g_client_sock w; threads := threads w;
               trace := trace w ++ [Ev_open "/dev/null"] |}).
Proof.
  unfold sys_open_devnull, when. destruct (0 <=? res); reflexivity.
Qed.

Lemma ScopedFile_dtor_run fd w :
  ScopedFile_dtor fd w =
  (Ret tt, if fd =? kInvalidFd then w
           else {| fds := delete fd (fds w); g_client_sock := g_client_sock w;
                   threads := threads w; trace := trace w ++ [Ev_close fd] |}).
Proof. unfold ScopedFile_dtor, when. now destruct (fd =? kInvalidFd). Qed.

Lemma UnixSocketRaw_dtor_valid s w :
  sock_valid s = true →
  UnixSocketRaw_dtor s w =
  (Ret tt, {| fds := delete (fd_ s) (fds w); g_client_sock := g_client_sock w;
              threads := threads w; trace := trace w ++ [Ev_close (fd_ s)] |}).
Proof.
  unfold UnixSocketRaw_dtor, ScopedFile_dtor, when, sock_valid.
  now intros ->.
Qed.

Lemma UnixSocketRaw_dtor_invalid s w :
  sock_valid s = false → UnixSocketRaw_dtor s w = (Ret tt, w).
Proof.
  unfold UnixSocketRaw_dtor, ScopedFile_dtor, when, sock_valid.
  now intros ->.
Qed.

Lemma UnixSocketRaw_dtor_default w :
  UnixSocketRaw_dtor UnixSocketRaw_default w = (Ret tt, w).
Proof. reflexivity. Qed.

Lemma ScopedFile_dtor_valid s w :
  sock_valid s = true →
  ScopedFile_dtor (fd_ s) w =
  (Ret tt, {| fds := delete (fd_ s) (fds w); g_client_sock := g_client_sock w;
              threads := threads w; trace := trace w ++ [Ev_close (fd_ s)] |}).
Proof. apply UnixSocketRaw_dtor_valid. Qed.

Lemma register_endpoint_valid s nb w :
  sock_valid s = true →
  register_endpoint s nb w =
  (Ret tt, {| fds := <[fd_ s := sock_entry s nb]> (fds w);
              g_client_sock := g_client_sock w;
              threads := threads w; trace := trace w |}).
Proof. unfold register_endpoint, when. now intros ->. Qed.

Lemma register_endpoint_invalid s nb w :
  sock_valid s = false → register_endpoint s nb w = (Ret tt, w).
Proof. unfold register_endpoint, when. now intros ->. Qed.

Lemma ReleaseFd_run s w :
  ReleaseFd s w =
  (Ret (fd_ s, UnixSocketRaw_default),
   {| fds := fds w; g_client_sock := g_client_sock w;
      threads := threads w; trace := trace w ++ [Ev_ReleaseFd (fd_ s)] |}).
Proof. reflexivity. Qed.

Lemma SetBlocking_run s b w :
  SetBlocking s b w =
  (Ret tt,
   {| fds := alter (λ e, {| of_what := of_what e; of_nonblock := negb b |})
                   (fd_ s) (fds w);
      g_client_sock := g_client_sock w; threads := threads w;
      trace := trace w ++ [Ev_SetBlocking (fd_ s) b] |}).
Proof. reflexivity. Qed.

Lemma IsBlocking_run s w :
  IsBlocking s w =
  (Ret (match fds w !! fd_ s with
        | Some e => negb (of_nonblock e)
        | None => false
        end), w).
Proof. reflexivity. Qed.

Lemma Send_run s msg len fdv res w :
  Send s msg len fdv res w =
  (Ret res, {| fds := fds w; g_client_sock := g_client_sock w;
               threads := threads w;
               trace := trace w ++ [Ev_Send (fd_ s) msg len fdv] |}).
Proof. reflexivity. Qed.

Lemma Receive_run s len n res w :
  Receive s len n res w =
  (Ret res, {| fds := fds w; g_client_sock := g_client_sock w;
               threads := threads w;
               trace := trace w ++ [Ev_Receive (fd_ s) len n] |}).
Proof. reflexivity. Qed.

Lemma CreateAndHandshake_ok s a w :
  CreateAndHandshake s a true w =
  (Ret (Some {| client_sock := s; client_alloc := a |}),
   {| fds := fds w; g_client_sock := g_client_sock w; threads := threads w;
      trace := trace w ++ [Ev_CreateAndHandshake (fd_ s)] |}).
Proof. reflexivity. Qed.

Lemma CreateAndHandshake_failed s a w :
  sock_valid s = true →
  CreateAndHandshake s a false w =
  (Ret None,
   {| fds := delete (fd_ s) (fds w); g_client_sock := g_client_sock w;
      threads := threads w;
      trace := trace w ++ [Ev_CreateAndHandshake (fd_ s); Ev_close (fd_ s)] |}).
Proof.
  intros Hs. unfold CreateAndHandshake.
  erewrite bind_Ret by (apply emit_run). cbn iota.
  erewrite bind_Ret by (now apply UnixSocketRaw_dtor_valid).
  rewrite ret_run. cbn [fds g_client_sock threads trace].
  now rewrite <- app_assoc.
Qed.

Lemma sys_exit_run {A} c w :
  @sys_exit A c w =
  (Exit c, {| fds := fds w; g_client_sock := g_client_sock w;
              threads := threads w; trace := trace w ++ [Ev_exit c] |}).
Proof. reflexivity. Qed.

Create HintDb run discriminated.

#[local] Hint Resolve ret_run emit_run set_fds_run set_client_sock_run
  add_thread_run get_fds_run deref_client_sock_run sys_close_run sys_dup2_run
  sys_open_devnull_run ScopedFile_dtor_valid UnixSocketRaw_dtor_valid
  UnixSocketRaw_dtor_invalid UnixSocketRaw_dtor_default
  register_endpoint_valid register_endpoint_invalid ReleaseFd_run
  SetBlocking_run IsBlocking_run Send_run Receive_run CreateAndHandshake_ok
  CreateAndHandshake_failed
  : run.

(** Rewrite with the boolean facts of the context. *)
Ltac use_hyps :=
  repeat match goal with
    | H : ?b = true |- context [?b] => rewrite H
    | H : ?b = false |- context [?b] => rewrite H
    end.

Ltac norm :=
  unfold when;
  cbn [negb orb andb fst snd fds g_client_sock threads trace fd_];
  use_hyps;
  cbn [negb orb andb fst snd fds g_client_sock threads trace fd_].

(** One step: reassociate a nested bind, or run the primitive at the head. *)
Ltac step :=
  first [ rewrite bind_assoc_run
        | erewrite bind_Ret by (eauto with run)
        | erewrite ret_run ].

Ltac steps := repeat (norm; step); norm.

(** Put the logged events of both sides in one list. *)
Ltac same_world :=
  unfold after, logged; cbn [fds g_client_sock threads trace];
  rewrite <- ?app_assoc; cbn [app]; try reflexivity.

(** ** [ConstructClient] *)

Lemma sends_app tr1 tr2 : sends (tr1 ++ tr2) = sends tr1 ++ sends tr2.
Proof. apply List.filter_app. Qed.

Lemma sends_dtor_events s : sends (dtor_events s) = [].
Proof. unfold dtor_events. now destruct (sock_valid s). Qed.

(** The run of [ConstructClient] when both endpoints were created. *)
Lemma ConstructClient_pair_ok alloc env w g srv cli :
  se_pair env = (srv, cli) →
  sock_valid srv = true →
  sock_valid cli = true →
  g_client_sock w = Some g →
  ConstructClient alloc env w =
  (Ret (if se_handshake env
        then Some {| client_sock := cli; client_alloc := alloc |} else None),
   after w
     (delete (fd_ srv)
        ((if se_handshake env then id else delete (fd_ cli))
           (<[fd_ cli := sock_entry cli (se_pair_nonblock env)]>
              (<[fd_ srv := sock_entry srv (se_pair_nonblock env)]> (fds w)))))
     (session_events g srv cli (se_handshake env))).
Proof.
  intros E Hs Hc Hg. unfold ConstructClient, CreatePair, session_events.
  rewrite E. destruct (se_handshake env) eqn:Hok; steps; same_world.
Qed.

(** The run of [ConstructClient] when an endpoint is missing. *)
Lemma ConstructClient_pair_failed alloc env w srv cli :
  se_pair env = (srv, cli) →
  negb (sock_valid cli) || negb (sock_valid srv) = true →
  ∃ t, ConstructClient alloc env w =
       (Ret None,
        after w t ([Ev_CreatePair; Ev_ELOG "Failed to create socket pair."]
                   ++ dtor_events cli ++ dtor_events srv))
       ∧ (sock_valid srv = false → sock_valid cli = false → t = fds w).
Proof.
  intros E H. unfold ConstructClient, CreatePair, dtor_events. rewrite E.
  destruct (sock_valid cli) eqn:Hc, (sock_valid srv) eqn:Hs;
    try discriminate H; eexists; (split; [steps; same_world | try discriminate]).
  reflexivity.
Qed.

Lemma sends_session_events g srv cli ok :
  sends (session_events g srv cli ok) = [Ev_Send (fd_ g) " " 1 [fd_ srv]].
Proof. unfold session_events. now destruct ok. Qed.




(** C2: when the session pair cannot be created, [ConstructClient] logs the
    failure and returns the null pointer without calling [Send]: the log
    holds no [Send] that it did not hold before, and neither [g_client_sock]
    nor the started threads change.  When [CreatePair] hands back two empty
    sockets, the descriptor table is untouched as well. *)
Theorem ConstructClient_pair_failure_sends_nothing alloc env w srv cli :
  se_pair env = (srv, cli) →
  negb (sock_valid cli) || negb (sock_valid srv) = true →
  fst (ConstructClient alloc env w) = Ret None
  ∧ trace (snd (ConstructClient alloc env w)) =
      trace w ++ [Ev_CreatePair; Ev_ELOG "Failed to create socket pair."]
              ++ dtor_events cli ++ dtor_events srv
  ∧ sends (trace (snd (ConstructClient alloc env w))) = sends (trace w)
  ∧ g_client_sock (snd (ConstructClient alloc env w)) = g_client_sock w
  ∧ threads (snd (ConstructClient alloc env w)) = threads w
  ∧ (sock_valid srv = false → sock_valid cli = false →
     fds (snd (ConstructClient alloc env w)) = fds w).
Proof.
  intros E H.
  destruct (ConstructClient_pair_failed alloc env w srv cli E H) as (t & -> & Ht).
  cbn [fst snd after trace g_client_sock threads fds].
  repeat split; try reflexivity.
  - rewrite !sends_app, !sends_dtor_events. cbn. now rewrite app_nil_r.
  - assumption.
Qed.

Lemma ConstructClient_pair_failure_sends_nothing_witness :
  negb (sock_valid UnixSocketRaw_default)
  || negb (sock_valid UnixSocketRaw_default) = true
  ∧ fst (ConstructClient 0 session_no_pair booted_world) = Ret None
  ∧ sends (trace (snd (ConstructClient 0 session_no_pair booted_world))) = []
  ∧ fds (snd (ConstructClient 0 session_no_pair booted_world)) =
      fds booted_world.
Proof.
  pose proof (ConstructClient_pair_failure_sends_nothing
                0 session_no_pair booted_world
                UnixSocketRaw_default UnixSocketRaw_default
                eq_refl eq_refl) as (Hr & _ & Hs & _ & _ & Hf).
  split; [reflexivity |].
  split; [exact Hr |].
  split; [exact Hs |].
  apply Hf; reflexivity.
Defined.

(** ** [MonitorFd] *)

Section MonitorFd.
Variables (w : world) (g : UnixSocketRaw) (rx : recv_result).
Hypothesis Hg : g_client_sock w = Some g.

Lemma MonitorFd_iteration_signal :
  1 ≤ rr_ret rx →
  MonitorFd_iteration rx w =
  (Ret LoopContinue,
   logged w [Ev_Receive (fd_ g) 1 0;
             Ev_heapprofd_init_session fn_malloc fn_free]).
Proof.
  intros Hr. apply Z.leb_le in Hr.
  unfold MonitorFd_iteration. steps. same_world.
Qed.

Lemma MonitorFd_iteration_disconnect :
  rr_ret rx = 0 →
  MonitorFd_iteration rx w =
  (Ret LoopBreak,
   logged w [Ev_Receive (fd_ g) 1 0; Ev_ELOG "Server disconneced."]).
Proof.
  intros Hr.
  assert (H1 : (1 <=? rr_ret rx) = false) by (apply Z.leb_gt; lia).
  assert (H0 : (rr_ret rx =? 0) = true) by (apply Z.eqb_eq; lia).
  unfold MonitorFd_iteration. steps. same_world.
Qed.

Lemma MonitorFd_iteration_error :
  rr_ret rx < 0 →
  MonitorFd_iteration rx w =
  (Ret LoopContinue,
   logged w [Ev_Receive (fd_ g) 1 0; Ev_PLOG "Receive failed."]).
Proof.
  intros Hr.
  assert (H1 : (1 <=? rr_ret rx) = false) by (apply Z.leb_gt; lia).
  assert (H0 : (rr_ret rx =? 0) = false) by (apply Z.eqb_neq; lia).
  unfold MonitorFd_iteration. steps. same_world.
Qed.
End MonitorFd.

Lemma init_calls_app tr1 tr2 :
  init_calls (tr1 ++ tr2) = (init_calls tr1 + init_calls tr2)%nat.
Proof. unfold init_calls. now rewrite List.filter_app, length_app. Qed.

(** The loop calls [heapprofd_init_session] once per receipt of at least one
    byte, up to the receipt of zero bytes. *)
Lemma MonitorFd_loop_init_calls rxs : ∀ w g,
  g_client_sock w = Some g →
  init_calls (trace (snd (MonitorFd_loop rxs w))) =
  (init_calls (trace w) + signals_before_disconnect rxs)%nat.
Proof.
  induction rxs as [|rx rxs IH]; intros w g Hg; cbn [MonitorFd_loop].
  - cbn. lia.
  - cbn [signals_before_disconnect].
    destruct (Z.lt_trichotomy (rr_ret rx) 0) as [Hneg | [Hz | Hpos]].
    + erewrite bind_Ret by (eapply MonitorFd_iteration_error; eauto).
      erewrite IH by (exact Hg).
      replace (rr_ret rx =? 0) with false by (symmetry; apply Z.eqb_neq; lia).
      replace (1 <=? rr_ret rx) with false by (symmetry; apply Z.leb_gt; lia).
      cbn [logged after trace]. rewrite init_calls_app. cbn. lia.
    + erewrite bind_Ret by (eapply MonitorFd_iteration_disconnect; eauto).
      replace (rr_ret rx =? 0) with true by (symmetry; apply Z.eqb_eq; lia).
      rewrite ret_run.
      cbn [snd logged after trace]. rewrite init_calls_app. cbn. lia.
    + erewrite bind_Ret by (eapply MonitorFd_iteration_signal; eauto; lia).
      erewrite IH by (exact Hg).
      replace (rr_ret rx =? 0) with false by (symmetry; apply Z.eqb_neq; lia).
      replace (1 <=? rr_ret rx) with true by (symmetry; apply Z.leb_le; lia).
      cbn [logged after trace]. rewrite init_calls_app. cbn. lia.
Qed.

(** A one-byte buffer: every receipt of data is a receipt of one byte. *)
Lemma bytes_are_signals rxs :
  Forall (λ rx, rr_ret rx ≤ 1) rxs →
  bytes_before_disconnect rxs = Z.of_nat (signals_before_disconnect rxs).
Proof.
  induction 1 as [|rx rxs Hrx _ IH]; [reflexivity |].
  cbn [bytes_before_disconnect signals_before_disconnect].
  destruct (rr_ret rx =? 0) eqn:E0; [reflexivity |].
  apply Z.eqb_neq in E0. rewrite IH.
  destruct (1 <=? rr_ret rx) eqn:E1.
  - apply Z.leb_le in E1. lia.
  - apply Z.leb_gt in E1. lia.
Qed.

(** C3: one pass of the [MonitorFd] loop, [rx] being what the blocking
    [Receive] on [g_client_sock] returns.  At least one byte: the loop calls
    [heapprofd_init_session(malloc, free)] and goes on.  Zero bytes: it logs
    and returns, and no later receipt is looked at.  An error: it logs and
    goes back to [Receive].  Over a whole run the number of calls of
    [heapprofd_init_session] is the number of receipts of data before the
    disconnect, which with the one-byte buffer is the number of bytes
    received. *)
Theorem MonitorFd_loop_iteration w g rx rxs :
  g_client_sock w = Some g →
  (1 ≤ rr_ret rx →
   MonitorFd_loop (rx :: rxs) w =
   MonitorFd_loop rxs
     (logged w [Ev_Receive (fd_ g) 1 0;
                Ev_heapprofd_init_session fn_malloc fn_free]))
  ∧ (rr_ret rx = 0 →
     MonitorFd_loop (rx :: rxs) w =
     (Ret MonitorReturned,
      logged w [Ev_Receive (fd_ g) 1 0; Ev_ELOG "Server disconneced."]))
  ∧ (rr_ret rx < 0 →
     MonitorFd_loop (rx :: rxs) w =
     MonitorFd_loop rxs
       (logged w [Ev_Receive (fd_ g) 1 0; Ev_PLOG "Receive failed."]))
  ∧ init_calls (trace (snd (MonitorFd_loop (rx :: rxs) w))) =
      (init_calls (trace w) + signals_before_disconnect (rx :: rxs))%nat
  ∧ (Forall (λ rx, rr_ret rx ≤ 1) (rx :: rxs) →
     Z.of_nat (init_calls (trace (snd (MonitorFd_loop (rx :: rxs) w))))
     = Z.of_nat (init_calls (trace w)) + bytes_before_disconnect (rx :: rxs)).
Proof.
  intros Hg. repeat split.
  - intros Hr. cbn [MonitorFd_loop].
    now erewrite bind_Ret by (eapply MonitorFd_iteration_signal; eauto).
  - intros Hr. cbn [MonitorFd_loop].
    now erewrite bind_Ret by (eapply MonitorFd_iteration_disconnect; eauto).
  - intros Hr. cbn [MonitorFd_loop].
    now erewrite bind_Ret by (eapply MonitorFd_iteration_error; eauto).
  - eapply MonitorFd_loop_init_calls; eauto.
  - intros Hall. erewrite MonitorFd_loop_init_calls by eauto.
    rewrite (bytes_are_signals _ Hall). lia.
Qed.

Lemma MonitorFd_loop_iteration_witness :
  g_client_sock booted_world = Some {| fd_ := 3 |}
  ∧ MonitorFd_loop [rx_byte; rx_error 4; rx_byte; rx_eof; rx_byte] booted_world
    = MonitorFd_loop [rx_error 4; rx_byte; rx_eof; rx_byte]
        (logged booted_world
           [Ev_Receive 3 1 0; Ev_heapprofd_init_session fn_malloc fn_free])
  ∧ init_calls
      (trace (snd (MonitorFd_loop
                     [rx_byte; rx_error 4; rx_byte; rx_eof; rx_byte]
                     booted_world))) = 2%nat.
Proof.
  destruct (MonitorFd_loop_iteration booted_world {| fd_ := 3 |} rx_byte
              [rx_error 4; rx_byte; rx_eof; rx_byte] eq_refl)
    as (H1 & _ & _ & H4 & _).
  split; [reflexivity |].
  split; [apply H1; cbn; lia | exact H4].
Defined.

(** ** The daemon's callbacks *)

(** The data-source callback sends the one marker byte, and no descriptor,
    on the daemon's end of the control socket. *)
Lemma data_source_callback_run srv res w :
  data_source_callback srv res w =
  (Ret tt, logged w [Ev_Send (fd_ srv) "x" 1 []]).
Proof. unfold data_source_callback. steps. same_world. Qed.

Section FdWatch.
Variables (srv : UnixSocketRaw) (rx : recv_result) (w : world).

Lemma fd_watch_callback_disconnect :
  rr_ret rx = 0 →
  fd_watch_callback srv rx w =
  (Exit 0, logged w [Ev_Receive (fd_ srv) 1 1;
                     Ev_LOG "Child disconnected."; Ev_exit 0]).
Proof.
  intros Hr.
  assert (H0 : (rr_ret rx =? 0) = true) by (apply Z.eqb_eq; lia).
  unfold fd_watch_callback. steps.
  erewrite bind_Exit by (apply sys_exit_run). same_world.
Qed.

Lemma fd_watch_callback_no_descriptor :
  rr_ret rx ≠ 0 →
  rr_fd rx = kInvalidFd →
  fd_watch_callback srv rx w = (Ret tt, logged w (receive_log srv rx)).
Proof.
  intros Hr Hfd.
  assert (H0 : (rr_ret rx =? 0) = false) by (apply Z.eqb_neq; lia).
  assert (H1 : (rr_fd rx =? kInvalidFd) = true) by (apply Z.eqb_eq; lia).
  unfold fd_watch_callback, receive_log. steps.
  destruct ((rr_ret rx =? -1) && negb (IsAgain (rr_errno rx)));
    steps; rewrite ScopedFile_dtor_run, H1; same_world.
Qed.

Lemma fd_watch_callback_descriptor :
  rr_ret rx ≠ 0 →
  rr_fd rx ≠ kInvalidFd →
  fd_watch_callback srv rx w =
  (Ret tt, logged w (receive_log srv rx ++ [Ev_AdoptSocket (rr_fd rx)])).
Proof.
  intros Hr Hfd.
  assert (H0 : (rr_ret rx =? 0) = false) by (apply Z.eqb_neq; lia).
  assert (H1 : (rr_fd rx =? kInvalidFd) = false) by (apply Z.eqb_neq; lia).
  unfold fd_watch_callback, receive_log. steps.
  destruct ((rr_ret rx =? -1) && negb (IsAgain (rr_errno rx)));
    steps; rewrite emit_run; same_world.
Qed.
End FdWatch.

(** C4: one firing of the watch on the daemon's end of the control socket,
    [rx] being what [Receive] returns.  A read of zero bytes ends the daemon
    with [_exit(0)] at once, and no later firing happens.  An error that is
    not would-block is logged and nothing else is done: the callback returns
    and the next firing is served as usual.  A would-block error is not
    logged.  A descriptor that came with data is handed to
    [producer.AdoptSocket]; more generally every descriptor of a read that is
    not the zero-byte one is adopted, as the last act of the callback. *)
Theorem fd_watch_callback_cases srv rx rxs w :
  (rr_ret rx = 0 →
   fd_watch_callback srv rx w =
     (Exit 0, logged w [Ev_Receive (fd_ srv) 1 1;
                        Ev_LOG "Child disconnected."; Ev_exit 0])
   ∧ run_fd_watch srv (rx :: rxs) w =
     (Exit 0, logged w [Ev_Receive (fd_ srv) 1 1;
                        Ev_LOG "Child disconnected."; Ev_exit 0]))
  ∧ (rr_ret rx = -1 → IsAgain (rr_errno rx) = false →
     rr_fd rx = kInvalidFd →
     fd_watch_callback srv rx w =
       (Ret tt, logged w [Ev_Receive (fd_ srv) 1 1; Ev_PLOG "Receive"])
     ∧ run_fd_watch srv (rx :: rxs) w =
       run_fd_watch srv rxs
         (logged w [Ev_Receive (fd_ srv) 1 1; Ev_PLOG "Receive"]))
  ∧ (rr_ret rx = -1 → IsAgain (rr_errno rx) = true →
     rr_fd rx = kInvalidFd →
     fd_watch_callback srv rx w =
       (Ret tt, logged w [Ev_Receive (fd_ srv) 1 1]))
  ∧ (1 ≤ rr_ret rx → rr_fd rx ≠ kInvalidFd →
     fd_watch_callback srv rx w =
       (Ret tt, logged w [Ev_Receive (fd_ srv) 1 1;
                          Ev_AdoptSocket (rr_fd rx)]))
  ∧ (rr_ret rx ≠ 0 → rr_fd rx ≠ kInvalidFd →
     ∃ pre, fd_watch_callback srv rx w =
            (Ret tt, logged w (pre ++ [Ev_AdoptSocket (rr_fd rx)]))).
Proof.
  split; [| split; [| split; [| split]]].
  - intros Hr. split.
    + now apply fd_watch_callback_disconnect.
    + cbn [run_fd_watch].
      now erewrite bind_Exit by (now apply fd_watch_callback_disconnect).
  - intros Hr Ha Hfd.
    assert (E : fd_watch_callback srv rx w =
                (Ret tt, logged w [Ev_Receive (fd_ srv) 1 1;
                                   Ev_PLOG "Receive"])).
    { rewrite fd_watch_callback_no_descriptor by (lia || assumption).
      unfold receive_log. now rewrite Hr, Ha. }
    split; [exact E |].
    cbn [run_fd_watch]. now erewrite bind_Ret by (exact E).
  - intros Hr Ha Hfd.
    rewrite fd_watch_callback_no_descriptor by (lia || assumption).
    unfold receive_log. now rewrite Hr, Ha.
  - intros Hr Hfd.
    rewrite fd_watch_callback_descriptor by (lia || assumption).
    unfold receive_log.
    replace (rr_ret rx =? -1) with false by (symmetry; apply Z.eqb_neq; lia).
    reflexivity.
  - intros Hr Hfd. eexists.
    now apply fd_watch_callback_descriptor.
Qed.

Lemma fd_watch_callback_cases_witness :
  fd_watch_callback {| fd_ := 4 |} rx_eof fresh_world =
    (Exit 0, logged fresh_world [Ev_Receive 4 1 1;
                                 Ev_LOG "Child disconnected."; Ev_exit 0])
  ∧ run_fd_watch {| fd_ := 4 |} [rx_error 5; rx_byte_with_fd 9] fresh_world =
      run_fd_watch {| fd_ := 4 |} [rx_byte_with_fd 9]
        (logged fresh_world [Ev_Receive 4 1 1; Ev_PLOG "Receive"])
  ∧ fd_watch_callback {| fd_ := 4 |} (rx_byte_with_fd 9) fresh_world =
      (Ret tt, logged fresh_world [Ev_Receive 4 1 1; Ev_AdoptSocket 9]).
Proof.
  split; [| split].
  - apply (fd_watch_callback_cases {| fd_ := 4 |} rx_eof [] fresh_world).
    reflexivity.
  - apply (fd_watch_callback_cases {| fd_ := 4 |} (rx_error 5)
             [rx_byte_with_fd 9] fresh_world); reflexivity.
  - apply (fd_watch_callback_cases {| fd_ := 4 |} (rx_byte_with_fd 9)
             [] fresh_world); [cbn; lia | discriminate].
Defined.

(** ** [ForkHeapprofd]: the scan of the inherited descriptors *)

Lemma close_scan_run n : ∀ i keep w,
  close_scan n i keep w =
  (Ret tt, after w (close_all (scan_targets n i keep) (fds w))
                   (map Ev_close (scan_targets n i keep))).
Proof.
  induction n as [|n IH]; intros i keep w; cbn [close_scan scan_targets].
  - rewrite ret_run. unfold after. cbn. rewrite app_nil_r. now destruct w.
  - unfold when. destruct (i =? keep); cbn [negb].
    + erewrite bind_Ret by (apply ret_run). now rewrite IH.
    + erewrite bind_Ret by (apply sys_close_run). rewrite IH.
      unfold after. cbn [fds g_client_sock threads trace app map close_all foldl].
      now rewrite <- app_assoc.
Qed.

Lemma elem_of_scan_targets n : ∀ i keep x,
  x ∈ scan_targets n i keep ↔ i ≤ x < i + Z.of_nat n ∧ x ≠ keep.
Proof.
  induction n as [|n IH]; intros i keep x; cbn [scan_targets].
  - rewrite elem_of_nil. lia.
  - rewrite elem_of_app, IH.
    destruct (i =? keep) eqn:E.
    + apply Z.eqb_eq in E. rewrite elem_of_nil. lia.
    + apply Z.eqb_neq in E. rewrite list_elem_of_singleton. lia.
Qed.

Lemma elem_of_inherited_targets keep x :
  x ∈ inherited_targets keep ↔
  STDERR_FILENO < x < kFdCeiling ∧ x ≠ keep.
Proof.
  unfold inherited_targets. rewrite elem_of_scan_targets.
  unfold kFdCeiling, STDERR_FILENO. lia.
Qed.

Lemma lookup_close_all l : ∀ (t : gmap Z open_file) x,
  close_all l t !! x = if decide (x ∈ l) then None else t !! x.
Proof.
  induction l as [|fd l IH]; intros t x; cbn [close_all foldl].
  - now rewrite decide_False by apply not_elem_of_nil.
  - fold (close_all l (delete fd t)). rewrite IH.
    destruct (decide (x ∈ l)) as [Hin | Hnin].
    + now rewrite decide_True by (rewrite elem_of_cons; tauto).
    + destruct (decide (x = fd)) as [-> | Hne].
      * rewrite decide_True by (rewrite elem_of_cons; tauto).
        apply lookup_delete_eq.
      * rewrite decide_False by (rewrite elem_of_cons; tauto).
        now apply lookup_delete_ne.
Qed.

Lemma close_inherited_run keep w :
  close_inherited keep w =
  (Ret tt, after w (close_all (inherited_targets keep) (fds w))
                   (map Ev_close (inherited_targets keep))).
Proof. apply close_scan_run. Qed.

#[local] Hint Resolve close_inherited_run : run.

(** ** [ForkHeapprofd]: the four ways through the function *)

(** The daemon side, in closed form. *)
Lemma ForkHeapprofd_child_run pid cmdline cli srv null w :
  sock_valid cli = true →
  ForkHeapprofd_child pid cmdline cli srv null w =
  (Ret DaemonEventLoop,
   after w (child_fds cli srv null (fds w))
           (child_redirect cli null ++ child_scan srv
            ++ child_service pid cmdline srv)).
Proof.
  intros Hc.
  unfold ForkHeapprofd_child, child_fds, child_redirect, child_scan,
    child_service, dup_fd.
  destruct (STDERR_FILENO <? null) eqn:Hnull; steps;
    unfold after; cbn [fds g_client_sock threads trace negb];
    rewrite <- ?app_assoc; cbn [app]; reflexivity.
Qed.

(** The profiled-process side after [fork()], in closed form. *)
Lemma ForkHeapprofd_parent_run f waitpid_res cli srv w old :
  g_client_sock w = Some old →
  sock_valid old = false →
  sock_valid srv = true →
  ForkHeapprofd_parent f waitpid_res cli srv w =
  (Ret BootstrapReturned,
   {| fds := delete (fd_ srv) (fds w);
      g_client_sock := Some cli;
      threads := threads w ++ [Thread_MonitorFd];
      trace := trace w ++ parent_events f waitpid_res cli srv |}).
Proof.
  intros Hg Hold Hs.
  unfold ForkHeapprofd_parent, parent_events.
  destruct (waitpid_res =? -1) eqn:Hw; steps;
    rewrite <- ?app_assoc; cbn [app]; reflexivity.
Qed.

Section ForkHeapprofd.
Variables (env : bootstrap_env) (w : world) (cli srv : UnixSocketRaw).
Hypothesis Hpair : be_pair env = (cli, srv).

(** Socket-pair creation failed. *)
Lemma ForkHeapprofd_pair_failed :
  negb (sock_valid cli) || negb (sock_valid srv) = true →
  ForkHeapprofd env w =
  (Ret BootstrapReturned,
   {| fds := close_sock srv (close_sock cli
               (register_sock srv (be_pair_nonblock env)
                  (register_sock cli (be_pair_nonblock env) (fds w))));
      g_client_sock := Some UnixSocketRaw_default;
      threads := threads w;
      trace := trace w ++ prologue env
               ++ [Ev_ELOG "Failed to create socket pair."]
               ++ dtor_events cli ++ dtor_events srv |}).
Proof.
  intros H.
  unfold ForkHeapprofd, CreatePair, prologue, dtor_events, close_sock,
    register_sock.
  rewrite Hpair.
  destruct (sock_valid cli) eqn:Hc, (sock_valid srv) eqn:Hs;
    try discriminate H;
    destruct (fst (be_cmdline env)) eqn:Hcmd;
    steps; rewrite <- ?app_assoc; cbn [app]; reflexivity.
Qed.

Hypothesis Hcli : sock_valid cli = true.
Hypothesis Hsrv : sock_valid srv = true.

(** [fork()] failed. *)
Lemma ForkHeapprofd_fork_failed :
  be_fork env = -1 →
  ForkHeapprofd env w =
  (Ret BootstrapReturned,
   {| fds := delete (fd_ srv)
               (delete (fd_ cli)
                  (pair_fds cli srv (be_pair_nonblock env) (fds w)));
      g_client_sock := Some UnixSocketRaw_default;
      threads := threads w;
      trace := trace w ++ prologue env
               ++ [Ev_fork; Ev_PLOG "fork";
                   Ev_close (fd_ cli); Ev_close (fd_ srv)] |}).
Proof.
  intros Hf.
  assert (Hf1 : (be_fork env =? -1) = true) by (apply Z.eqb_eq; lia).
  unfold ForkHeapprofd, CreatePair, prologue, pair_fds. rewrite Hpair.
  destruct (fst (be_cmdline env)) eqn:Hcmd; steps;
    rewrite <- ?app_assoc; cbn [app]; reflexivity.
Qed.

(** [fork()] returned in the profiled process. *)
Lemma ForkHeapprofd_parent_path :
  be_fork env ≠ -1 →
  be_fork env ≠ 0 →
  ForkHeapprofd env w =
  (Ret BootstrapReturned,
   {| fds := delete (fd_ srv)
               (pair_fds cli srv (be_pair_nonblock env) (fds w));
      g_client_sock := Some cli;
      threads := threads w ++ [Thread_MonitorFd];
      trace := trace w ++ prologue env ++ [Ev_fork]
               ++ parent_events (be_fork env) (be_waitpid env) cli srv |}).
Proof.
  intros Hf1 Hf0.
  apply Z.eqb_neq in Hf1, Hf0.
  unfold ForkHeapprofd, CreatePair, prologue, pair_fds. rewrite Hpair.
  destruct (fst (be_cmdline env)) eqn:Hcmd; steps;
    (erewrite ForkHeapprofd_parent_run by (reflexivity || assumption));
    cbn [fds g_client_sock threads trace];
    rewrite <- ?app_assoc; cbn [app]; reflexivity.
Qed.

(** [fork()] returned in the child. *)
Lemma ForkHeapprofd_child_path :
  be_fork env = 0 →
  ForkHeapprofd env w =
  (Ret DaemonEventLoop,
   {| fds := child_fds cli srv (be_open env)
               (pair_fds cli srv (be_pair_nonblock env) (fds w));
      g_client_sock := Some UnixSocketRaw_default;
      threads := threads w;
      trace := trace w ++ prologue env ++ [Ev_fork]
               ++ child_redirect cli (be_open env) ++ child_scan srv
               ++ child_service (be_pid env) (snd (be_cmdline env)) srv |}).
Proof.
  intros Hf.
  assert (Hf1 : (be_fork env =? -1) = false) by (apply Z.eqb_neq; lia).
  assert (Hf0 : (be_fork env =? 0) = true) by (apply Z.eqb_eq; lia).
  unfold ForkHeapprofd, CreatePair, prologue, pair_fds. rewrite Hpair.
  destruct (fst (be_cmdline env)) eqn:Hcmd; steps;
    rewrite ForkHeapprofd_child_run by assumption;
    unfold after; cbn [fds g_client_sock threads trace];
    rewrite <- ?app_assoc; cbn [app]; reflexivity.
Qed.
End ForkHeapprofd.

(** Every run of [ForkHeapprofd], whatever its calls return and whatever the
    process looked like before: the function never faults and never exits. *)
Lemma ForkHeapprofd_run env w :
  ForkHeapprofd env w =
  (Ret (bootstrap_outcome env),
   {| fds := bootstrap_fds env (fds w);
      g_client_sock := Some (bootstrap_client_sock env);
      threads := threads w ++ bootstrap_threads env;
      trace := trace w ++ bootstrap_events env |}).
Proof.
  destruct (be_pair env) as [cli srv] eqn:Hpair.
  unfold bootstrap_outcome, bootstrap_fds, bootstrap_client_sock,
    bootstrap_threads, bootstrap_events, path_of.
  rewrite Hpair. cbn [fst snd].
  destruct (negb (sock_valid cli) || negb (sock_valid srv)) eqn:Hv.
  - rewrite (ForkHeapprofd_pair_failed env w cli srv Hpair Hv).
    now rewrite app_nil_r.
  - apply orb_false_elim in Hv as [Hc Hs].
    apply negb_false_iff in Hc, Hs.
    destruct (be_fork env =? -1) eqn:Hf1.
    + apply Z.eqb_eq in Hf1.
      rewrite (ForkHeapprofd_fork_failed env w cli srv Hpair Hc Hs Hf1).
      now rewrite app_nil_r.
    + apply Z.eqb_neq in Hf1.
      destruct (be_fork env =? 0) eqn:Hf0; cbn [negb].
      * apply Z.eqb_eq in Hf0.
        rewrite (ForkHeapprofd_child_path env w cli srv Hpair Hc Hs Hf0).
        now rewrite app_nil_r.
      * apply Z.eqb_neq in Hf0.
        now rewrite (ForkHeapprofd_parent_path env w cli srv Hpair Hc Hs Hf1 Hf0).
Qed.

(** ** The descriptor table of the daemon *)

Lemma lookup_dup_fd_ne oldfd newfd (t : gmap Z open_file) x :
  x ≠ newfd → dup_fd oldfd newfd t !! x = t !! x.
Proof.
  intros Hx. unfold dup_fd. destruct (t !! oldfd); [| reflexivity].
  now apply lookup_insert_ne.
Qed.

Lemma lookup_dup_fd_eq oldfd newfd (t : gmap Z open_file) e :
  t !! oldfd = Some e → dup_fd oldfd newfd t !! newfd = Some e.
Proof. intros H. unfold dup_fd. rewrite H. apply lookup_insert_eq. Qed.

Lemma lookup_pair_fds_other cli srv nb (t : gmap Z open_file) x :
  x ≠ fd_ cli → x ≠ fd_ srv → pair_fds cli srv nb t !! x = t !! x.
Proof.
  intros Hc Hs. unfold pair_fds.
  rewrite lookup_insert_ne by congruence. now rewrite lookup_insert_ne.
Qed.

Lemma lookup_pair_fds_srv cli srv nb (t : gmap Z open_file) :
  pair_fds cli srv nb t !! fd_ srv = Some (sock_entry srv nb).
Proof. unfold pair_fds. apply lookup_insert_eq. Qed.

Lemma lookup_pair_fds_cli cli srv nb (t : gmap Z open_file) :
  fd_ cli ≠ fd_ srv →
  pair_fds cli srv nb t !! fd_ cli = Some (sock_entry cli nb).
Proof.
  intros H. unfold pair_fds. rewrite lookup_insert_ne by congruence.
  apply lookup_insert_eq.
Qed.

Section ChildFds.
Variables (cli srv : UnixSocketRaw) (null : Z) (t : gmap Z open_file).

(** Below the ceiling only the endpoint survives the scan. *)
Lemma child_fds_scanned x :
  STDERR_FILENO < x < kFdCeiling → x ≠ fd_ srv →
  child_fds cli srv null t !! x = None.
Proof.
  intros Hx Hs. unfold child_fds. cbv zeta.
  rewrite lookup_alter_ne by congruence.
  rewrite lookup_close_all.
  now rewrite decide_True by (now apply elem_of_inherited_targets).
Qed.

(** Outside the scanned range the scan changes nothing. *)
Lemma child_fds_unscanned x :
  ¬ (STDERR_FILENO < x < kFdCeiling) → x ≠ fd_ srv →
  x ≠ fd_ cli → x ≠ null → x ≠ STDIN_FILENO → x ≠ STDOUT_FILENO →
  child_fds cli srv null t !! x = t !! x.
Proof.
  intros Hx Hs Hc Hn H0 H1. unfold child_fds. cbv zeta.
  rewrite lookup_alter_ne by congruence.
  rewrite lookup_close_all.
  rewrite decide_False by (rewrite elem_of_inherited_targets; tauto).
  assert (E : ∀ t' : gmap Z open_file,
            (if STDERR_FILENO <? null then delete null t' else t') !! x
            = t' !! x).
  { intros t'. destruct (STDERR_FILENO <? null); [| reflexivity].
    now apply lookup_delete_ne. }
  rewrite E, !lookup_dup_fd_ne by assumption.
  destruct (0 <=? null).
  - rewrite lookup_insert_ne by congruence. now apply lookup_delete_ne.
  - now apply lookup_delete_ne.
Qed.

(** The endpoint stays open and becomes non-blocking. *)
Lemma child_fds_endpoint :
  STDERR_FILENO < fd_ srv → fd_ cli ≠ fd_ srv → null ≠ fd_ srv →
  child_fds cli srv null t !! fd_ srv = set_nonblock <$> t !! fd_ srv.
Proof.
  intros Hs Hc Hn. unfold child_fds. cbv zeta.
  rewrite lookup_alter_eq. f_equal.
  rewrite lookup_close_all.
  rewrite decide_False by (rewrite elem_of_inherited_targets; tauto).
  assert (E : ∀ t' : gmap Z open_file,
            (if STDERR_FILENO <? null then delete null t' else t')
              !! fd_ srv = t' !! fd_ srv).
  { intros t'. destruct (STDERR_FILENO <? null); [| reflexivity].
    now apply lookup_delete_ne. }
  unfold STDERR_FILENO, STDIN_FILENO, STDOUT_FILENO in *.
  rewrite E, !lookup_dup_fd_ne by lia.
  destruct (0 <=? null).
  - rewrite lookup_insert_ne by congruence. now apply lookup_delete_ne.
  - now apply lookup_delete_ne.
Qed.

(** Standard input and output refer to the null device. *)
Lemma child_fds_redirected :
  0 ≤ null → STDERR_FILENO < fd_ srv →
  child_fds cli srv null t !! STDIN_FILENO = Some devnull_entry
  ∧ child_fds cli srv null t !! STDOUT_FILENO = Some devnull_entry.
Proof.
  intros Hn Hs. unfold child_fds. cbv zeta.
  apply Z.leb_le in Hn. rewrite Hn. apply Z.leb_le in Hn.
  set (t2 := <[null := devnull_entry]> (delete (fd_ cli) t)).
  assert (H2 : t2 !! null = Some devnull_entry) by apply lookup_insert_eq.
  assert (H3 : dup_fd null STDIN_FILENO t2 !! null = Some devnull_entry).
  { destruct (decide (null = STDIN_FILENO)) as [-> | Hne].
    - now apply lookup_dup_fd_eq.
    - now rewrite lookup_dup_fd_ne. }
  assert (E : ∀ (t' : gmap Z open_file) x, x ≤ STDERR_FILENO →
            (if STDERR_FILENO <? null then delete null t' else t') !! x
            = t' !! x).
  { intros t' x Hx. destruct (STDERR_FILENO <? null) eqn:El;
      [| reflexivity].
    apply Z.ltb_lt in El. apply lookup_delete_ne. lia. }
  unfold STDERR_FILENO, STDIN_FILENO, STDOUT_FILENO in *.
  split.
  - rewrite lookup_alter_ne by lia.
    rewrite lookup_close_all.
    rewrite decide_False
      by (rewrite elem_of_inherited_targets; unfold STDERR_FILENO; lia).
    rewrite E by lia. rewrite lookup_dup_fd_ne by lia.
    now apply lookup_dup_fd_eq.
  - rewrite lookup_alter_ne by lia.
    rewrite lookup_close_all.
    rewrite decide_False
      by (rewrite elem_of_inherited_targets; unfold STDERR_FILENO; lia).
    rewrite E by lia. now apply lookup_dup_fd_eq.
Qed.
End ChildFds.

(** ** The log of a bootstrap *)

Lemma new_events_app w w' evs :
  trace w' = trace w ++ evs → new_events w w' = evs.
Proof. intros H. unfold new_events. rewrite H. apply drop_app_length. Qed.

Lemma new_events_ForkHeapprofd env w :
  new_events w (snd (ForkHeapprofd env w)) = bootstrap_events env.
Proof. apply new_events_app. now rewrite ForkHeapprofd_run. Qed.

(** The scan logs nothing but [close] calls. *)
Lemma elem_of_child_scan srv e :
  e ∈ child_scan srv ↔
  ∃ fd, e = Ev_close fd ∧ STDERR_FILENO < fd < kFdCeiling ∧ fd ≠ fd_ srv.
Proof.
  unfold child_scan. rewrite list_elem_of_fmap.
  split; intros (fd & H1 & H2); exists fd; (split; [exact H1 |]).
  - now apply elem_of_inherited_targets in H2.
  - now apply elem_of_inherited_targets.
Qed.

(** Decide that an event is not in a list written out in full. *)
Ltac not_logged :=
  let H := fresh "H" in
  intros H;
  repeat match type of H with
    | _ ∈ (if ?b then _ else _) ++ _ => destruct b
    | _ ∈ (if ?b then _ else _) => destruct b
    | _ ∈ _ :: _ => apply elem_of_cons in H as [H | H]; [discriminate H |]
    | _ ∈ [] ++ _ => cbn [app] in H
    | _ ∈ (_ :: _) ++ _ => cbn [app] in H
    | _ ∈ child_scan _ ++ _ => apply elem_of_app in H as [H | H];
        [apply elem_of_child_scan in H as (? & ? & _); discriminate |]
    | _ ∈ [] => now apply elem_of_nil in H
    end.

Lemma path_of_parent env :
  path_of env = ParentPath ↔
  sock_valid (fst (be_pair env)) = true
  ∧ sock_valid (snd (be_pair env)) = true
  ∧ be_fork env ≠ -1 ∧ be_fork env ≠ 0.
Proof.
  unfold path_of.
  destruct (sock_valid (fst (be_pair env))), (sock_valid (snd (be_pair env)));
    cbn [negb orb];
    try (split; [discriminate | intros (? & ? & _); discriminate]).
  destruct (be_fork env =? -1) eqn:E1;
    [apply Z.eqb_eq in E1 | apply Z.eqb_neq in E1];
    destruct (be_fork env =? 0) eqn:E0;
    [apply Z.eqb_eq in E0 | apply Z.eqb_neq in E0
    |apply Z.eqb_eq in E0 | apply Z.eqb_neq in E0]; cbn [negb];
    (split; [try discriminate; tauto | intros (_ & _ & ? & ?);
                                       try reflexivity; tauto]).
Qed.

Lemma path_of_with_cmdline_ok env :
  path_of (with_cmdline_ok env) = path_of env.
Proof. reflexivity. Qed.

Section Paths.
Variables (env : bootstrap_env) (cli srv : UnixSocketRaw).
Hypothesis Hpair : be_pair env = (cli, srv).

Lemma path_of_pair_failed :
  negb (sock_valid cli) || negb (sock_valid srv) = true →
  path_of env = PairFailed.
Proof. unfold path_of. rewrite Hpair. cbn [fst snd]. now intros ->. Qed.

Hypothesis Hcli : sock_valid cli = true.
Hypothesis Hsrv : sock_valid srv = true.

Lemma path_of_fork_failed : be_fork env = -1 → path_of env = ForkFailed.
Proof.
  intros Hf. unfold path_of. rewrite Hpair. cbn [fst snd].
  now rewrite Hcli, Hsrv, Hf.
Qed.

Lemma path_of_child : be_fork env = 0 → path_of env = ChildPath.
Proof.
  intros Hf. unfold path_of. rewrite Hpair. cbn [fst snd].
  now rewrite Hcli, Hsrv, Hf.
Qed.

Lemma path_of_parent_path :
  be_fork env ≠ -1 → be_fork env ≠ 0 → path_of env = ParentPath.
Proof.
  intros H1 H0. apply path_of_parent. now rewrite Hpair.
Qed.
End Paths.

(** ** The bootstrap in the daemon *)

(** C5: on the child path, [ForkHeapprofd] calls [daemon()], redirects
    standard input and output to [/dev/null], and only then scans the
    descriptors above standard error up to the ceiling 512, closing each one
    that is not the daemon's end of the control socket.  The scan closes
    exactly those descriptors, so never standard error and never that
    endpoint; when the function enters the event loop no descriptor of the
    scanned range is open but the endpoint, while standard error and the
    endpoint still are, and standard input and output refer to the null
    device. *)
Theorem ForkHeapprofd_child_closes_inherited env w cli srv :
  be_pair env = (cli, srv) →
  sock_valid cli = true →
  sock_valid srv = true →
  be_fork env = 0 →
  fst (ForkHeapprofd env w) = Ret DaemonEventLoop
  ∧ trace (snd (ForkHeapprofd env w)) =
      trace w ++ prologue env ++ [Ev_fork]
      ++ child_redirect cli (be_open env) ++ child_scan srv
      ++ child_service (be_pid env) (snd (be_cmdline env)) srv
  ∧ (∀ fd, Ev_close fd ∈ child_scan srv ↔
           STDERR_FILENO < fd < kFdCeiling ∧ fd ≠ fd_ srv)
  ∧ (∀ fd, STDERR_FILENO < fd < kFdCeiling → fd ≠ fd_ srv →
           fds (snd (ForkHeapprofd env w)) !! fd = None)
  ∧ (fd_ cli ≠ STDERR_FILENO → fd_ srv ≠ STDERR_FILENO →
     be_open env ≠ STDERR_FILENO →
     fds (snd (ForkHeapprofd env w)) !! STDERR_FILENO
     = fds w !! STDERR_FILENO)
  ∧ (STDERR_FILENO < fd_ srv → fd_ cli ≠ fd_ srv → be_open env ≠ fd_ srv →
     fds (snd (ForkHeapprofd env w)) !! fd_ srv = Some (sock_entry srv true))
  ∧ (0 ≤ be_open env → STDERR_FILENO < fd_ srv →
     fds (snd (ForkHeapprofd env w)) !! STDIN_FILENO = Some devnull_entry
     ∧ fds (snd (ForkHeapprofd env w)) !! STDOUT_FILENO = Some devnull_entry).
Proof.
  intros Hpair Hc Hs Hf.
  rewrite (ForkHeapprofd_child_path env w cli srv Hpair Hc Hs Hf).
  cbn [fst snd fds trace].
  split; [reflexivity | split; [reflexivity |]].
  split; [| split; [| split; [| split]]].
  - intros fd. rewrite elem_of_child_scan. split.
    + now intros (fd' & [= ->] & H).
    + intros H. now exists fd.
  - intros fd Hfd Hne. now apply child_fds_scanned.
  - intros H1 H2 H3.
    rewrite child_fds_unscanned; try (unfold STDERR_FILENO in *; congruence).
    + apply lookup_pair_fds_other; congruence.
    + unfold STDERR_FILENO. lia.
    + discriminate.
    + discriminate.
  - intros H1 H2 H3.
    rewrite child_fds_endpoint by assumption.
    now rewrite lookup_pair_fds_srv.
  - intros H1 H2. now apply child_fds_redirected.
Qed.

Lemma ForkHeapprofd_child_closes_inherited_witness :
  be_pair (boot_env 0) = ({| fd_ := 3 |}, {| fd_ := 4 |})
  ∧ be_fork (boot_env 0) = 0
  ∧ fst (ForkHeapprofd (boot_env 0) crowded_world) = Ret DaemonEventLoop
  ∧ fds (snd (ForkHeapprofd (boot_env 0) crowded_world)) !! 7 = None
  ∧ fds (snd (ForkHeapprofd (boot_env 0) crowded_world)) !! 2
    = Some (inherited_entry 2)
  ∧ fds (snd (ForkHeapprofd (boot_env 0) crowded_world)) !! 4
    = Some (sock_entry {| fd_ := 4 |} true).
Proof.
  destruct (ForkHeapprofd_child_closes_inherited
              (boot_env 0) crowded_world {| fd_ := 3 |} {| fd_ := 4 |}
              eq_refl eq_refl eq_refl eq_refl)
    as (Hr & _ & _ & Hclosed & Herr & Hsrv & _).
  split; [reflexivity | split; [reflexivity | split; [exact Hr |]]].
  split; [| split].
  - apply (Hclosed 7); [unfold STDERR_FILENO, kFdCeiling; lia | discriminate].
  - refine (eq_trans (Herr _ _ _) _); [discriminate .. | reflexivity].
  - apply Hsrv; [reflexivity | discriminate | discriminate].
Defined.

(** The scan stops at the ceiling: a descriptor at or above 512 that the
    profiled process had open stays open in the daemon. *)
Example descriptor_above_ceiling_stays_open :
  fds (snd (ForkHeapprofd (boot_env 0) crowded_world)) !! 600
  = Some (inherited_entry 600).
Proof.
  rewrite (ForkHeapprofd_child_path (boot_env 0) crowded_world
             {| fd_ := 3 |} {| fd_ := 4 |}) by reflexivity.
  cbn [snd fds].
  rewrite child_fds_unscanned; try discriminate.
  - reflexivity.
  - unfold STDERR_FILENO, kFdCeiling. lia.
Qed.

(** ** The bootstrap in the profiled process *)

(** C6: on the parent path the calls of [ForkHeapprofd] come in this order:
    [waitpid] on the forked child, the assignment to [*g_client_sock], the
    start of the thread running [MonitorFd], its [detach]; then the function
    returns.  No thread is started before the assignment, and after the
    return [g_client_sock] holds the profiled process's end of the pair. *)
Theorem ForkHeapprofd_parent_order env w cli srv :
  be_pair env = (cli, srv) →
  sock_valid cli = true →
  sock_valid srv = true →
  be_fork env ≠ -1 →
  be_fork env ≠ 0 →
  fst (ForkHeapprofd env w) = Ret BootstrapReturned
  ∧ trace (snd (ForkHeapprofd env w)) =
      trace w ++ prologue env
      ++ [Ev_fork; Ev_waitpid (be_fork env)]
      ++ (if be_waitpid env =? -1 then [Ev_PLOG "waitpid"] else [])
      ++ [Ev_assign_client_sock (fd_ cli); Ev_thread_MonitorFd;
          Ev_thread_detach; Ev_close (fd_ srv)]
  ∧ (Ev_thread_MonitorFd ∉
       prologue env ++ [Ev_fork; Ev_waitpid (be_fork env)]
       ++ (if be_waitpid env =? -1 then [Ev_PLOG "waitpid"] else [])
       ++ [Ev_assign_client_sock (fd_ cli)])
  ∧ g_client_sock (snd (ForkHeapprofd env w)) = Some cli
  ∧ threads (snd (ForkHeapprofd env w)) = threads w ++ [Thread_MonitorFd].
Proof.
  intros Hpair Hc Hs Hf1 Hf0.
  rewrite (ForkHeapprofd_parent_path env w cli srv Hpair Hc Hs Hf1 Hf0).
  cbn [fst snd trace g_client_sock threads].
  split; [reflexivity | split; [| split; [| split; reflexivity]]].
  - unfold parent_events. cbn [app]. reflexivity.
  - unfold prologue. rewrite <- ?app_assoc. not_logged.
Qed.

Lemma ForkHeapprofd_parent_order_witness :
  be_pair (boot_env 77) = ({| fd_ := 3 |}, {| fd_ := 4 |})
  ∧ be_fork (boot_env 77) = 77
  ∧ trace (snd (ForkHeapprofd (boot_env 77) fresh_world)) =
      [Ev_getpid; Ev_GetCmdlineForPID 1234; Ev_new_client_sock;
       Ev_CreatePair; Ev_fork; Ev_waitpid 77; Ev_assign_client_sock 3;
       Ev_thread_MonitorFd; Ev_thread_detach; Ev_close 4]
  ∧ g_client_sock (snd (ForkHeapprofd (boot_env 77) fresh_world))
    = Some {| fd_ := 3 |}.
Proof.
  destruct (ForkHeapprofd_parent_order
              (boot_env 77) fresh_world {| fd_ := 3 |} {| fd_ := 4 |}
              eq_refl eq_refl eq_refl)
    as (_ & Ht & _ & Hg & _); [discriminate | discriminate |].
  split; [reflexivity | split; [reflexivity | split; [exact Ht | exact Hg]]].
Defined.

(** ** Failures of the bootstrap *)

(** C7: when the control pair cannot be created, or when [fork()] fails,
    [ForkHeapprofd] logs the failure and returns to its caller: it does not
    fault or exit, no daemon is started and no thread is.  In the first case
    [fork()] is not even called.  A failure of [GetCmdlineForPID] adds one
    line to the log and changes nothing else in the run. *)
Theorem ForkHeapprofd_failure_paths env w cli srv :
  be_pair env = (cli, srv) →
  (negb (sock_valid cli) || negb (sock_valid srv) = true →
   fst (ForkHeapprofd env w) = Ret BootstrapReturned
   ∧ trace (snd (ForkHeapprofd env w)) =
       trace w ++ prologue env
       ++ [Ev_ELOG "Failed to create socket pair."]
       ++ dtor_events cli ++ dtor_events srv
   ∧ threads (snd (ForkHeapprofd env w)) = threads w
   ∧ (Ev_fork ∉ new_events w (snd (ForkHeapprofd env w)))
   ∧ (Ev_thread_MonitorFd ∉ new_events w (snd (ForkHeapprofd env w))))
  ∧ (sock_valid cli = true → sock_valid srv = true → be_fork env = -1 →
     fst (ForkHeapprofd env w) = Ret BootstrapReturned
     ∧ trace (snd (ForkHeapprofd env w)) =
         trace w ++ prologue env
         ++ [Ev_fork; Ev_PLOG "fork"; Ev_close (fd_ cli); Ev_close (fd_ srv)]
     ∧ threads (snd (ForkHeapprofd env w)) = threads w
     ∧ (∀ a b, Ev_daemon a b ∉ new_events w (snd (ForkHeapprofd env w)))
     ∧ (Ev_thread_MonitorFd ∉ new_events w (snd (ForkHeapprofd env w))))
  ∧ (fst (ForkHeapprofd env w) = fst (ForkHeapprofd (with_cmdline_ok env) w)
     ∧ fds (snd (ForkHeapprofd env w))
       = fds (snd (ForkHeapprofd (with_cmdline_ok env) w))
     ∧ g_client_sock (snd (ForkHeapprofd env w))
       = g_client_sock (snd (ForkHeapprofd (with_cmdline_ok env) w))
     ∧ threads (snd (ForkHeapprofd env w))
       = threads (snd (ForkHeapprofd (with_cmdline_ok env) w))
     ∧ ∃ rest,
         trace (snd (ForkHeapprofd env w)) =
           trace w ++ [Ev_getpid; Ev_GetCmdlineForPID (be_pid env)]
           ++ (if fst (be_cmdline env) then []
               else [Ev_ELOG "Failed to get cmdline."])
           ++ rest
         ∧ trace (snd (ForkHeapprofd (with_cmdline_ok env) w)) =
             trace w ++ [Ev_getpid; Ev_GetCmdlineForPID (be_pid env)]
             ++ rest).
Proof.
  intros Hpair. split; [| split].
  - intros Hv. rewrite new_events_ForkHeapprofd.
    unfold bootstrap_events.
    rewrite (path_of_pair_failed env cli srv Hpair Hv), Hpair.
    rewrite (ForkHeapprofd_pair_failed env w cli srv Hpair Hv).
    cbn [fst snd trace threads].
    repeat (split; [reflexivity |]).
    unfold prologue, dtor_events. rewrite <- ?app_assoc.
    split; not_logged.
  - intros Hc Hs Hf. rewrite new_events_ForkHeapprofd.
    unfold bootstrap_events.
    rewrite (path_of_fork_failed env cli srv Hpair Hc Hs Hf), Hpair.
    rewrite (ForkHeapprofd_fork_failed env w cli srv Hpair Hc Hs Hf).
    cbn [fst snd trace threads].
    repeat (split; [reflexivity |]).
    unfold prologue. rewrite <- ?app_assoc.
    split; [intros a b |]; not_logged.
  - rewrite !ForkHeapprofd_run. cbn [fst snd fds g_client_sock threads trace].
    repeat (split; [reflexivity |]).
    eexists. split.
    + unfold bootstrap_events, prologue. rewrite <- ?app_assoc.
      cbn [app]. reflexivity.
    + reflexivity.
Qed.

Lemma ForkHeapprofd_failure_paths_witness :
  be_pair boot_env_no_pair = (UnixSocketRaw_default, UnixSocketRaw_default)
  ∧ fst (ForkHeapprofd boot_env_no_pair fresh_world) = Ret BootstrapReturned
  ∧ trace (snd (ForkHeapprofd boot_env_no_pair fresh_world)) =
      [Ev_getpid; Ev_GetCmdlineForPID 1234;
       Ev_ELOG "Failed to get cmdline.";
       Ev_new_client_sock; Ev_CreatePair;
       Ev_ELOG "Failed to create socket pair."]
  ∧ trace (snd (ForkHeapprofd (boot_env (-1)) fresh_world)) =
      [Ev_getpid; Ev_GetCmdlineForPID 1234; Ev_new_client_sock;
       Ev_CreatePair; Ev_fork; Ev_PLOG "fork"; Ev_close 3; Ev_close 4].
Proof.
  destruct (ForkHeapprofd_failure_paths
              boot_env_no_pair fresh_world
              UnixSocketRaw_default UnixSocketRaw_default eq_refl)
    as (Hpair & _ & _).
  destruct (Hpair eq_refl) as (Hr & Ht & _).
  destruct (ForkHeapprofd_failure_paths
              (boot_env (-1)) fresh_world
              {| fd_ := 3 |} {| fd_ := 4 |} eq_refl)
    as (_ & Hfork & _).
  destruct (Hfork eq_refl eq_refl eq_refl) as (_ & Ht' & _).
  split; [reflexivity |].
  split; [exact Hr |].
  split; [exact Ht | exact Ht'].
Defined.

(** ** The control socket of the profiled process *)

(** The check at the top of [MonitorFd] passes on a blocking endpoint. *)
Lemma MonitorFd_dcheck_passes rxs w g e :
  g_client_sock w = Some g →
  fds w !! fd_ g = Some e →
  of_nonblock e = false →
  MonitorFd rxs w = MonitorFd_loop rxs w.
Proof.
  intros Hg He Hb. unfold MonitorFd. steps.
  rewrite He, Hb. cbn [negb DCHECK]. now steps.
Qed.

(** ... and fails on a non-blocking one. *)
Lemma MonitorFd_dcheck_fails rxs w g e :
  g_client_sock w = Some g →
  fds w !! fd_ g = Some e →
  of_nonblock e = true →
  MonitorFd rxs w = (Fault DcheckFailed, w).
Proof.
  intros Hg He Hb. unfold MonitorFd. steps.
  rewrite He, Hb. cbn [negb DCHECK]. reflexivity.
Qed.

(** Find the entries of a list written out in full that an event can be. *)
Ltac in_log H :=
  repeat match type of H with
    | _ ∈ (if ?b then _ else _) ++ _ => destruct b
    | _ ∈ (if ?b then _ else _) => destruct b
    | _ ∈ _ :: _ => apply elem_of_cons in H as [H | H]; [try discriminate H |]
    | _ ∈ [] ++ _ => cbn [app] in H
    | _ ∈ (_ :: _) ++ _ => cbn [app] in H
    | _ ∈ child_scan _ ++ _ => apply elem_of_app in H as [H | H];
        [apply elem_of_child_scan in H as (? & ? & _); try discriminate |]
    | _ ∈ [] => now apply elem_of_nil in H
    end.

(** C9: after the parent path of [ForkHeapprofd], [g_client_sock] is the
    profiled process's end of the control pair, in the mode the pair was
    created in: the parent path calls no [SetBlocking] and closes nothing
    but the daemon's end.  With a pair created in blocking mode the check at
    the top of [MonitorFd] therefore passes.  The one [SetBlocking] of the
    file is on the child path, on the daemon's end of the pair. *)
Theorem MonitorFd_endpoint_is_blocking env w cli srv :
  be_pair env = (cli, srv) →
  sock_valid cli = true →
  sock_valid srv = true →
  be_fork env ≠ -1 →
  be_fork env ≠ 0 →
  fd_ cli ≠ fd_ srv →
  g_client_sock (snd (ForkHeapprofd env w)) = Some cli
  ∧ fds (snd (ForkHeapprofd env w)) !! fd_ cli
    = Some (sock_entry cli (be_pair_nonblock env))
  ∧ (∀ fd b, Ev_SetBlocking fd b ∉ new_events w (snd (ForkHeapprofd env w)))
  ∧ (∀ fd, Ev_close fd ∈ new_events w (snd (ForkHeapprofd env w)) →
           fd = fd_ srv)
  ∧ (be_pair_nonblock env = false →
     fst (IsBlocking cli (snd (ForkHeapprofd env w))) = Ret true
     ∧ ∀ rxs, MonitorFd rxs (snd (ForkHeapprofd env w))
              = MonitorFd_loop rxs (snd (ForkHeapprofd env w)))
  ∧ (∀ env' w' fd b,
       be_pair env' = (cli, srv) → be_fork env' = 0 →
       Ev_SetBlocking fd b ∈ new_events w' (snd (ForkHeapprofd env' w')) →
       fd = fd_ srv ∧ b = false).
Proof.
  intros Hpair Hc Hs Hf1 Hf0 Hne.
  assert (Hfd : fds (snd (ForkHeapprofd env w)) !! fd_ cli
                = Some (sock_entry cli (be_pair_nonblock env))).
  { rewrite (ForkHeapprofd_parent_path env w cli srv Hpair Hc Hs Hf1 Hf0).
    cbn [snd fds]. rewrite lookup_delete_ne by congruence.
    now apply lookup_pair_fds_cli. }
  assert (Hg : g_client_sock (snd (ForkHeapprofd env w)) = Some cli).
  { now rewrite (ForkHeapprofd_parent_path env w cli srv Hpair Hc Hs Hf1 Hf0). }
  split; [exact Hg | split; [exact Hfd |]].
  split; [| split; [| split]].
  - intros fd b. rewrite new_events_ForkHeapprofd. unfold bootstrap_events.
    rewrite (path_of_parent_path env cli srv Hpair Hc Hs Hf1 Hf0).
    unfold prologue, parent_events. rewrite <- ?app_assoc. not_logged.
  - intros fd. rewrite new_events_ForkHeapprofd. unfold bootstrap_events.
    rewrite (path_of_parent_path env cli srv Hpair Hc Hs Hf1 Hf0), Hpair.
    unfold prologue, parent_events. rewrite <- ?app_assoc. cbn [fst snd].
    intros H. in_log H; congruence.
  - intros Hnb. rewrite Hnb in Hfd. split.
    + rewrite IsBlocking_run, Hfd. reflexivity.
    + intros rxs. now apply (MonitorFd_dcheck_passes rxs _ cli _ Hg Hfd).
  - intros env' w' fd b Hpair' Hf'.
    rewrite new_events_ForkHeapprofd. unfold bootstrap_events.
    rewrite (path_of_child env' cli srv Hpair' Hc Hs Hf'), Hpair'.
    unfold prologue, child_redirect, child_service.
    rewrite <- ?app_assoc. cbn [fst snd].
    intros H. in_log H; now injection H as -> ->.
Qed.

Lemma MonitorFd_endpoint_is_blocking_witness :
  be_pair (boot_env 77) = ({| fd_ := 3 |}, {| fd_ := 4 |})
  ∧ be_fork (boot_env 77) = 77
  ∧ fds (snd (ForkHeapprofd (boot_env 77) fresh_world)) !! 3
    = Some (sock_entry {| fd_ := 3 |} false)
  ∧ MonitorFd [rx_byte; rx_eof] (snd (ForkHeapprofd (boot_env 77) fresh_world))
    = MonitorFd_loop [rx_byte; rx_eof]
        (snd (ForkHeapprofd (boot_env 77) fresh_world)).
Proof.
  destruct (MonitorFd_endpoint_is_blocking
              (boot_env 77) fresh_world {| fd_ := 3 |} {| fd_ := 4 |}
              eq_refl eq_refl eq_refl)
    as (_ & Hfd & _ & _ & Hb & _); [discriminate .. |].
  destruct (Hb eq_refl) as (_ & Hm).
  split; [reflexivity | split; [reflexivity | split; [exact Hfd | apply Hm]]].
Defined.

(** ** [g_client_sock] after the bootstrap *)

Lemma filter_is_assign_child_scan srv :
  List.filter is_assign (child_scan srv) = [].
Proof.
  unfold child_scan. induction (inherited_targets (fd_ srv)); [reflexivity |].
  exact IHl.
Qed.

(** The bootstrap assigns to [*g_client_sock] once on the parent path and
    never on the others. *)
Lemma assignments_of_bootstrap env :
  length (List.filter is_assign (bootstrap_events env)) =
  match path_of env with ParentPath => 1%nat | _ => 0%nat end.
Proof.
  unfold bootstrap_events, prologue, dtor_events, parent_events,
    child_redirect, child_service.
  rewrite !List.filter_app.
  destruct (path_of env);
    rewrite ?List.filter_app, ?filter_is_assign_child_scan;
    repeat match goal with
      | |- context [if ?b then _ else _] => destruct b
      end; reflexivity.
Qed.



(** The null pointer becomes a socket even when the pair cannot be
    created. *)
Example g_client_sock_after_failed_bootstrap :
  g_client_sock fresh_world = None
  ∧ g_client_sock (snd (ForkHeapprofd boot_env_no_pair fresh_world))
    = Some UnixSocketRaw_default.
Proof. split; [reflexivity |]. now rewrite ForkHeapprofd_run. Qed.

(** * Further properties of the code *)

Lemma logged_logged w es1 es2 :
  logged (logged w es1) es2 = logged w (es1 ++ es2).
Proof. unfold logged, after. cbn. now rewrite app_assoc. Qed.

Lemma logged_nil w : logged w [] = w.
Proof. unfold logged, after. rewrite app_nil_r. now destruct w. Qed.

Lemma new_events_logged w es : new_events w (logged w es) = es.
Proof. now apply new_events_app. Qed.

Lemma new_events_after w t es : new_events w (after w t es) = es.
Proof. now apply new_events_app. Qed.

(** ** The whole run of [MonitorFd_loop] *)

(** One pass, whatever the receipt: what is logged and whether the loop goes
    on. *)
Lemma MonitorFd_iteration_run w g rx :
  g_client_sock w = Some g →
  ∃ es, MonitorFd_iteration rx w =
        (Ret (if rr_ret rx =? 0 then LoopBreak else LoopContinue),
         logged w (Ev_Receive (fd_ g) 1 0 :: es))
        ∧ Forall (monitor_event g) es
        ∧ List.filter is_Receive es = [].
Proof.
  intros Hg. unfold monitor_event.
  destruct (Z.lt_trichotomy (rr_ret rx) 0) as [Hneg | [Hz | Hpos]].
  - rewrite (MonitorFd_iteration_error w g rx Hg Hneg).
    replace (rr_ret rx =? 0) with false by (symmetry; apply Z.eqb_neq; lia).
    eexists. split; [reflexivity | split; [| reflexivity]].
    constructor; [auto 6 | constructor].
  - rewrite (MonitorFd_iteration_disconnect w g rx Hg Hz).
    replace (rr_ret rx =? 0) with true by (symmetry; apply Z.eqb_eq; lia).
    eexists. split; [reflexivity | split; [| reflexivity]].
    constructor; [auto 6 | constructor].
  - rewrite (MonitorFd_iteration_signal w g rx Hg) by lia.
    replace (rr_ret rx =? 0) with false by (symmetry; apply Z.eqb_neq; lia).
    eexists. split; [reflexivity | split; [| reflexivity]].
    constructor; [auto 6 | constructor].
Qed.

(** The run of the loop in closed form: the status it ends in and a log
    that holds one [Receive] per receipt read. *)
Lemma MonitorFd_loop_run rxs : ∀ w g,
  g_client_sock w = Some g →
  ∃ es, MonitorFd_loop rxs w =
        (Ret (if disconnects rxs then MonitorReturned else MonitorReceiving),
         logged w es)
        ∧ Forall (monitor_event g) es
        ∧ length (List.filter is_Receive es) = length (until_disconnect rxs).
Proof.
  induction rxs as [|rx rxs IH]; intros w g Hg.
  - exists []. cbn [MonitorFd_loop disconnects existsb until_disconnect].
    rewrite ret_run, logged_nil. repeat split. constructor.
  - cbn [MonitorFd_loop disconnects existsb until_disconnect].
    destruct (MonitorFd_iteration_run w g rx Hg) as (es & Hrun & Hes & Hrx).
    erewrite bind_Ret by (exact Hrun).
    destruct (rr_ret rx =? 0) eqn:E0; cbn [orb].
    + eexists. rewrite ret_run. split; [reflexivity |].
      split.
      * constructor; [unfold monitor_event; auto | exact Hes].
      * cbn [List.filter is_Receive]. now rewrite Hrx.
    + destruct (IH (logged w (Ev_Receive (fd_ g) 1 0 :: es)) g Hg)
        as (es' & Hrun' & Hes' & Hrx').
      fold (disconnects rxs). rewrite Hrun', logged_logged.
      eexists. split; [reflexivity |].
      split.
      * apply Forall_app. split; [| exact Hes'].
        constructor; [unfold monitor_event; auto | exact Hes].
      * rewrite List.filter_app, length_app.
        cbn [List.filter is_Receive length]. rewrite Hrx, Hrx'.
        reflexivity.
Qed.

Lemma MonitorFd_loop_until_disconnect rxs : ∀ w g,
  g_client_sock w = Some g →
  MonitorFd_loop rxs w = MonitorFd_loop (until_disconnect rxs) w.
Proof.
  induction rxs as [|rx rxs IH]; intros w g Hg; [reflexivity |].
  cbn [MonitorFd_loop until_disconnect].
  destruct (MonitorFd_iteration_run w g rx Hg) as (es & Hrun & _).
  destruct (rr_ret rx =? 0) eqn:E0.
  - cbn [MonitorFd_loop]. now rewrite !(bind_Ret _ _ _ _ _ Hrun).
  - cbn [MonitorFd_loop]. rewrite !(bind_Ret _ _ _ _ _ Hrun).
    now apply (IH _ g).
Qed.

(** X2: [MonitorFd]'s loop ends exactly when a [Receive] returns zero
    bytes: errors, however many, never end it.  It calls [Receive] once per
    receipt up to and with that one, and what the socket would deliver
    afterwards is never read. *)
Theorem MonitorFd_loop_stops_at_disconnect rxs w g :
  g_client_sock w = Some g →
  fst (MonitorFd_loop rxs w) =
    Ret (if disconnects rxs then MonitorReturned else MonitorReceiving)
  ∧ length (List.filter is_Receive
              (new_events w (snd (MonitorFd_loop rxs w))))
    = length (until_disconnect rxs)
  ∧ MonitorFd_loop rxs w = MonitorFd_loop (until_disconnect rxs) w.
Proof.
  intros Hg. split; [| split].
  - now destruct (MonitorFd_loop_run rxs w g Hg) as (es & -> & _).
  - destruct (MonitorFd_loop_run rxs w g Hg) as (es & -> & _ & Hn).
    cbn [snd]. now rewrite new_events_logged.
  - now apply (MonitorFd_loop_until_disconnect rxs w g).
Qed.

Lemma MonitorFd_loop_stops_at_disconnect_witness :
  g_client_sock booted_world = Some {| fd_ := 3 |}
  ∧ fst (MonitorFd_loop [rx_error 4; rx_error 4; rx_error 4] booted_world)
    = Ret MonitorReceiving
  ∧ MonitorFd_loop [rx_byte; rx_eof; rx_byte; rx_byte] booted_world
    = MonitorFd_loop [rx_byte; rx_eof] booted_world.
Proof.
  split; [reflexivity | split].
  - apply (MonitorFd_loop_stops_at_disconnect
             [rx_error 4; rx_error 4; rx_error 4] booted_world
             {| fd_ := 3 |} eq_refl).
  - apply (MonitorFd_loop_stops_at_disconnect
             [rx_byte; rx_eof; rx_byte; rx_byte] booted_world
             {| fd_ := 3 |} eq_refl).
Defined.

(** ** The whole run of the daemon's descriptor watch *)

Lemma adoptions_app tr1 tr2 :
  adoptions (tr1 ++ tr2) = adoptions tr1 ++ adoptions tr2.
Proof. apply List.flat_map_app. Qed.

Lemma adoptions_receive_log srv rx : adoptions (receive_log srv rx) = [].
Proof.
  unfold receive_log.
  now destruct ((rr_ret rx =? -1) && negb (IsAgain (rr_errno rx))).
Qed.

Lemma closes_receive_log srv rx :
  List.filter is_close (receive_log srv rx) = [].
Proof.
  unfold receive_log.
  now destruct ((rr_ret rx =? -1) && negb (IsAgain (rr_errno rx))).
Qed.

(** One firing on a read that is not the zero-byte one. *)
Lemma fd_watch_callback_run srv rx w :
  rr_ret rx ≠ 0 →
  ∃ es, fd_watch_callback srv rx w = (Ret tt, logged w es)
        ∧ adoptions es
          = (if rr_fd rx =? kInvalidFd then [] else [rr_fd rx])
        ∧ List.filter is_close es = [].
Proof.
  intros Hr. destruct (rr_fd rx =? kInvalidFd) eqn:Hfd.
  - apply Z.eqb_eq in Hfd.
    rewrite (fd_watch_callback_no_descriptor srv rx w Hr Hfd).
    eexists. split; [reflexivity |].
    split; [apply adoptions_receive_log | apply closes_receive_log].
  - apply Z.eqb_neq in Hfd.
    rewrite (fd_watch_callback_descriptor srv rx w Hr Hfd).
    eexists. split; [reflexivity |]. split.
    + now rewrite adoptions_app, adoptions_receive_log.
    + now rewrite List.filter_app, closes_receive_log.
Qed.

Lemma run_fd_watch_run srv rxs : ∀ w,
  ∃ es, run_fd_watch srv rxs w =
        (if disconnects rxs then Exit 0 else Ret tt, logged w es)
        ∧ adoptions es = descriptors_before_disconnect rxs
        ∧ List.filter is_close es = [].
Proof.
  induction rxs as [|rx rxs IH]; intros w;
    cbn [run_fd_watch disconnects existsb descriptors_before_disconnect].
  - exists []. rewrite ret_run, logged_nil. now repeat split.
  - destruct (rr_ret rx =? 0) eqn:E0; cbn [orb].
    + apply Z.eqb_eq in E0.
      erewrite bind_Exit by (now apply fd_watch_callback_disconnect).
      eexists. now repeat split.
    + apply Z.eqb_neq in E0.
      destruct (fd_watch_callback_run srv rx w E0) as (es & Hrun & Ha & Hc).
      erewrite bind_Ret by (exact Hrun).
      destruct (IH (logged w es)) as (es' & Hrun' & Ha' & Hc').
      fold (disconnects rxs). rewrite Hrun', logged_logged.
      eexists. split; [reflexivity |]. split.
      * now rewrite adoptions_app, Ha, Ha'.
      * now rewrite List.filter_app, Hc, Hc'.
Qed.

Lemma run_fd_watch_until_disconnect srv rxs : ∀ w,
  run_fd_watch srv rxs w = run_fd_watch srv (until_disconnect rxs) w.
Proof.
  induction rxs as [|rx rxs IH]; intros w; [reflexivity |].
  cbn [run_fd_watch until_disconnect].
  destruct (rr_ret rx =? 0) eqn:E0; cbn [run_fd_watch].
  - apply Z.eqb_eq in E0.
    now rewrite !(bind_Exit _ _ _ _ _
                    (fd_watch_callback_disconnect srv rx w E0)).
  - apply Z.eqb_neq in E0.
    destruct (fd_watch_callback_run srv rx w E0) as (es & Hrun & _).
    rewrite !(bind_Ret _ _ _ _ _ Hrun). apply IH.
Qed.

(** X3: over any sequence of firings, the daemon's descriptor watch hands
    to [producer.AdoptSocket] exactly the descriptors that came with the
    reads before the first read of zero bytes, in order and once each,
    whatever those reads returned otherwise (an error return included).
    The read of zero bytes ends the process with [_exit(0)]: a descriptor
    that comes with it is not adopted, and no later firing is served.  The
    callback calls [close] on none of them. *)
Theorem run_fd_watch_adopts_received_descriptors srv rxs w :
  fst (run_fd_watch srv rxs w) = (if disconnects rxs then Exit 0 else Ret tt)
  ∧ adoptions (new_events w (snd (run_fd_watch srv rxs w)))
    = descriptors_before_disconnect rxs
  ∧ List.filter is_close (new_events w (snd (run_fd_watch srv rxs w))) = []
  ∧ run_fd_watch srv rxs w = run_fd_watch srv (until_disconnect rxs) w.
Proof.
  destruct (run_fd_watch_run srv rxs w) as (es & Hrun & Ha & Hc).
  split; [| split; [| split]].
  - now rewrite Hrun.
  - rewrite Hrun. cbn [snd]. now rewrite new_events_logged.
  - rewrite Hrun. cbn [snd]. now rewrite new_events_logged.
  - apply run_fd_watch_until_disconnect.
Qed.

(** Three descriptors arrive, the second with an error return, the third
    with the zero-byte read: the first two are adopted. *)
Example run_fd_watch_example :
  adoptions
    (trace (snd (run_fd_watch {| fd_ := 4 |}
                   [rx_byte_with_fd 9; rx_error_with_fd 5 10;
                    rx_eof_with_fd 11; rx_byte_with_fd 12]
                   fresh_world)))
  = [9; 10]
  ∧ fst (run_fd_watch {| fd_ := 4 |}
           [rx_byte_with_fd 9; rx_error_with_fd 5 10;
            rx_eof_with_fd 11; rx_byte_with_fd 12]
           fresh_world) = Exit 0.
Proof. split; reflexivity. Qed.

(** ** Descriptors of a session *)

Lemma closes_session_events g srv cli ok :
  List.filter is_close (session_events g srv cli ok) =
  (if ok then [] else [Ev_close (fd_ cli)]) ++ [Ev_close (fd_ srv)].
Proof. unfold session_events. now destruct ok. Qed.

(** X4: in a session whose pair was created, [ConstructClient] closes the
    daemon-bound descriptor itself, once, and only after it has sent it.
    The only other [close] of the call is the one of the client's end when
    the handshake fails.  Afterwards the daemon-bound descriptor is not
    open in the profiled process, the client's end is open exactly when the
    handshake succeeded, and every descriptor other than the two of the
    session is as it was. *)
Theorem ConstructClient_closes_sent_descriptor alloc env w g srv cli :
  se_pair env = (srv, cli) →
  sock_valid srv = true →
  sock_valid cli = true →
  g_client_sock w = Some g →
  List.filter is_close
    (new_events w (snd (ConstructClient alloc env w))) =
    (if se_handshake env then [] else [Ev_close (fd_ cli)])
    ++ [Ev_close (fd_ srv)]
  ∧ (∃ pre post,
       new_events w (snd (ConstructClient alloc env w)) =
         pre ++ [Ev_Send (fd_ g) " " 1 [fd_ srv]] ++ post
       ∧ List.filter is_close pre = []
       ∧ Ev_close (fd_ srv) ∈ post)
  ∧ fds (snd (ConstructClient alloc env w)) !! fd_ srv = None
  ∧ (fd_ cli ≠ fd_ srv →
     fds (snd (ConstructClient alloc env w)) !! fd_ cli =
     if se_handshake env
     then Some (sock_entry cli (se_pair_nonblock env)) else None)
  ∧ (∀ x, x ≠ fd_ srv → x ≠ fd_ cli →
          fds (snd (ConstructClient alloc env w)) !! x = fds w !! x).
Proof.
  intros E Hs Hc Hg.
  rewrite (ConstructClient_pair_ok alloc env w g srv cli E Hs Hc Hg).
  cbn [snd]. rewrite new_events_after. cbn [after fds].
  split; [apply closes_session_events | split; [| split; [| split]]].
  - exists [Ev_CreatePair; Ev_ReleaseFd (fd_ srv)]. eexists.
    split; [unfold session_events; cbn [app]; reflexivity |].
    split; [reflexivity |].
    apply elem_of_cons. right. apply elem_of_app. right.
    apply list_elem_of_singleton. reflexivity.
  - apply lookup_delete_eq.
  - intros Hne. rewrite lookup_delete_ne by congruence.
    destruct (se_handshake env); cbn [id].
    + apply lookup_insert_eq.
    + apply lookup_delete_eq.
  - intros x Hxs Hxc. rewrite lookup_delete_ne by congruence.
    destruct (se_handshake env); cbn [id];
      rewrite ?lookup_delete_ne by congruence;
      rewrite lookup_insert_ne by congruence;
      now rewrite lookup_insert_ne by congruence.
Qed.

Lemma ConstructClient_closes_sent_descriptor_witness :
  se_pair session_handshake_fails = ({| fd_ := 5 |}, {| fd_ := 6 |})
  ∧ fds (snd (ConstructClient 0 session_handshake_fails booted_world)) !! 5
    = None
  ∧ fds (snd (ConstructClient 0 session_handshake_fails booted_world)) !! 6
    = None
  ∧ fds (snd (ConstructClient 0 session_ok booted_world)) !! 6
    = Some (sock_entry {| fd_ := 6 |} false)
  ∧ fds (snd (ConstructClient 0 session_handshake_fails booted_world)) !! 3
    = fds booted_world !! 3.
Proof.
  destruct (ConstructClient_closes_sent_descriptor
              0 session_handshake_fails booted_world {| fd_ := 3 |}
              {| fd_ := 5 |} {| fd_ := 6 |}
              eq_refl eq_refl eq_refl eq_refl) as (_ & _ & H5 & H6 & Hx).
  destruct (ConstructClient_closes_sent_descriptor
              0 session_ok booted_world {| fd_ := 3 |}
              {| fd_ := 5 |} {| fd_ := 6 |}
              eq_refl eq_refl eq_refl eq_refl) as (_ & _ & _ & H6' & _).
  split; [reflexivity | split; [exact H5 |]].
  split; [apply H6; discriminate |].
  split; [apply H6'; discriminate |].
  apply Hx; discriminate.
Defined.

(** X5: [ConstructClient] does not ask whether the bootstrap succeeded.
    Called after any run of [ForkHeapprofd] that returned, with a session
    pair that was created, it does not fault: it calls [Send] with the
    session descriptor on whatever [g_client_sock] points to, the profiled
    process's end of the control pair after the parent path and the
    default socket, which holds no descriptor, after a failed bootstrap;
    then it goes on to the handshake, and closes the client's end when the
    handshake fails. *)
Theorem ConstructClient_after_bootstrap alloc benv senv w srv cli :
  fst (ForkHeapprofd benv w) = Ret BootstrapReturned →
  se_pair senv = (srv, cli) →
  sock_valid srv = true →
  sock_valid cli = true →
  fst (ConstructClient alloc senv (snd (ForkHeapprofd benv w))) =
    Ret (if se_handshake senv
         then Some {| client_sock := cli; client_alloc := alloc |}
         else None)
  ∧ new_events (snd (ForkHeapprofd benv w))
      (snd (ConstructClient alloc senv (snd (ForkHeapprofd benv w)))) =
    [Ev_CreatePair; Ev_ReleaseFd (fd_ srv);
     Ev_Send (match path_of benv with
              | ParentPath => fd_ (fst (be_pair benv))
              | _ => kInvalidFd
              end) " " 1 [fd_ srv];
     Ev_CreateAndHandshake (fd_ cli)]
    ++ (if se_handshake senv then [] else [Ev_close (fd_ cli)])
    ++ [Ev_close (fd_ srv)].
Proof.
  intros _ E Hs Hc.
  assert (Hg : g_client_sock (snd (ForkHeapprofd benv w))
               = Some (bootstrap_client_sock benv))
    by now rewrite ForkHeapprofd_run.
  rewrite (ConstructClient_pair_ok alloc senv _ _ srv cli E Hs Hc Hg).
  cbn [fst snd]. split; [reflexivity |].
  rewrite new_events_after. unfold session_events, bootstrap_client_sock.
  now destruct (path_of benv).
Qed.

Lemma ConstructClient_after_bootstrap_witness :
  fst (ForkHeapprofd boot_env_no_pair fresh_world) = Ret BootstrapReturned
  ∧ se_pair session_no_daemon = ({| fd_ := 5 |}, {| fd_ := 6 |})
  ∧ new_events (snd (ForkHeapprofd boot_env_no_pair fresh_world))
      (snd (ConstructClient 0 session_no_daemon
              (snd (ForkHeapprofd boot_env_no_pair fresh_world)))) =
    [Ev_CreatePair; Ev_ReleaseFd 5; Ev_Send (-1) " " 1 [5];
     Ev_CreateAndHandshake 6; Ev_close 6; Ev_close 5].
Proof.
  assert (Hr : fst (ForkHeapprofd boot_env_no_pair fresh_world)
               = Ret BootstrapReturned) by now rewrite ForkHeapprofd_run.
  destruct (ConstructClient_after_bootstrap
              0 boot_env_no_pair session_no_daemon fresh_world
              {| fd_ := 5 |} {| fd_ := 6 |} Hr eq_refl eq_refl eq_refl)
    as (_ & Hlog).
  split; [exact Hr | split; [reflexivity | exact Hlog]].
Defined.

(** ** Descriptors of the bootstrap *)

(** Compare two descriptor tables entry by entry. *)
Ltac by_lookup :=
  apply map_eq; intros ?;
  repeat (rewrite ?lookup_insert, ?lookup_delete);
  repeat case_decide; subst; congruence.

(** X6: a bootstrap that fails, because the control pair cannot be created
    or because [fork()] fails, gives back every descriptor it took: when the
    descriptors of the pair were not open before, the descriptor table after
    [ForkHeapprofd] is the one before it. *)
Theorem ForkHeapprofd_failure_restores_descriptors env w cli srv :
  be_pair env = (cli, srv) →
  negb (sock_valid cli) || negb (sock_valid srv) = true ∨ be_fork env = -1 →
  fds w !! fd_ cli = None →
  fds w !! fd_ srv = None →
  fds (snd (ForkHeapprofd env w)) = fds w.
Proof.
  intros Hpair Hfail Hc Hs.
  rewrite ForkHeapprofd_run. cbn [snd fds].
  unfold bootstrap_fds, path_of, close_sock, register_sock, pair_fds.
  rewrite Hpair. cbn [fst snd].
  destruct (sock_valid cli), (sock_valid srv); cbn [negb orb];
    try by_lookup.
  destruct Hfail as [Hfail | ->]; [discriminate Hfail |].
  cbn [Z.eqb Pos.eqb]. by_lookup.
Qed.

Lemma ForkHeapprofd_failure_restores_descriptors_witness :
  be_pair (boot_env (-1)) = ({| fd_ := 3 |}, {| fd_ := 4 |})
  ∧ be_fork (boot_env (-1)) = -1
  ∧ fds (snd (ForkHeapprofd (boot_env (-1)) crowded_world))
    = fds crowded_world.
Proof.
  split; [reflexivity | split; [reflexivity |]].
  apply (ForkHeapprofd_failure_restores_descriptors
           (boot_env (-1)) crowded_world {| fd_ := 3 |} {| fd_ := 4 |}
           eq_refl (or_intror eq_refl) eq_refl eq_refl).
Defined.

(** X7: after the parent path the profiled process holds one descriptor
    more than before, its own end of the control pair: [ForkHeapprofd]
    closes the daemon's end before it returns and touches nothing else. *)
Theorem ForkHeapprofd_parent_keeps_its_end env w cli srv :
  be_pair env = (cli, srv) →
  sock_valid cli = true →
  sock_valid srv = true →
  be_fork env ≠ -1 →
  be_fork env ≠ 0 →
  fd_ cli ≠ fd_ srv →
  fds w !! fd_ srv = None →
  fds (snd (ForkHeapprofd env w))
  = <[fd_ cli := sock_entry cli (be_pair_nonblock env)]> (fds w).
Proof.
  intros Hpair Hc Hs Hf1 Hf0 Hne Hfree.
  rewrite (ForkHeapprofd_parent_path env w cli srv Hpair Hc Hs Hf1 Hf0).
  cbn [snd fds]. unfold pair_fds. by_lookup.
Qed.

Lemma ForkHeapprofd_parent_keeps_its_end_witness :
  be_pair (boot_env 77) = ({| fd_ := 3 |}, {| fd_ := 4 |})
  ∧ be_fork (boot_env 77) = 77
  ∧ fds (snd (ForkHeapprofd (boot_env 77) crowded_world))
    = <[3 := sock_entry {| fd_ := 3 |} false]> (fds crowded_world).
Proof.
  split; [reflexivity | split; [reflexivity |]].
  apply (ForkHeapprofd_parent_keeps_its_end
           (boot_env 77) crowded_world {| fd_ := 3 |} {| fd_ := 4 |}
           eq_refl eq_refl eq_refl); [discriminate .. | reflexivity].
Defined.

(** ** Descriptors of the daemon *)

Lemma dup_fd_not_open oldfd newfd (t : gmap Z open_file) :
  t !! oldfd = None → dup_fd oldfd newfd t = t.
Proof. intros H. unfold dup_fd. now rewrite H. Qed.

Section ChildFdsMore.
Variables (cli srv : UnixSocketRaw) (null : Z) (t : gmap Z open_file).

(** The daemon does not keep the other end of the pair, whatever number
    [open] returns. *)
Lemma child_fds_client_end :
  STDERR_FILENO < fd_ cli → fd_ cli ≠ fd_ srv →
  child_fds cli srv null t !! fd_ cli = None.
Proof.
  intros Hc Hne. unfold child_fds. cbv zeta.
  rewrite lookup_alter_ne by congruence.
  rewrite lookup_close_all. case_decide; [reflexivity |].
  destruct (STDERR_FILENO <? null) eqn:El;
    unfold STDERR_FILENO, STDIN_FILENO, STDOUT_FILENO in *.
  - destruct (decide (null = fd_ cli)) as [-> | Hn];
      [apply lookup_delete_eq |].
    rewrite lookup_delete_ne by congruence.
    rewrite !lookup_dup_fd_ne by lia.
    destruct (0 <=? null).
    + rewrite lookup_insert_ne by congruence. apply lookup_delete_eq.
    + apply lookup_delete_eq.
  - apply Z.ltb_ge in El.
    rewrite !lookup_dup_fd_ne by lia.
    destruct (0 <=? null).
    + rewrite lookup_insert_ne by lia. apply lookup_delete_eq.
    + apply lookup_delete_eq.
Qed.

(** When [open] fails the two [dup2] calls fail as well and the table is
    only scanned. *)
Lemma child_fds_open_failed :
  null < 0 → t !! null = None →
  child_fds cli srv null t =
  alter set_nonblock (fd_ srv)
        (close_all (inherited_targets (fd_ srv)) (delete (fd_ cli) t)).
Proof.
  intros Hn Hfree. unfold child_fds. cbv zeta.
  replace (0 <=? null) with false by (symmetry; apply Z.leb_gt; lia).
  replace (STDERR_FILENO <? null) with false
    by (symmetry; apply Z.ltb_ge; unfold STDERR_FILENO; lia).
  assert (H : delete (fd_ cli) t !! null = None).
  { destruct (decide (fd_ cli = null)) as [<- | Hne].
    - apply lookup_delete_eq.
    - now rewrite lookup_delete_ne. }
  rewrite (dup_fd_not_open null STDIN_FILENO) by exact H.
  now rewrite dup_fd_not_open by exact H.
Qed.

(** Descriptors 0 and 1 after the redirect and the scan, before the
    endpoint is made non-blocking. *)
Lemma child_fds_standard_streams x :
  0 ≤ null → x = STDIN_FILENO ∨ x = STDOUT_FILENO →
  child_fds cli srv null t !! x =
  (if decide (x = fd_ srv) then Some (set_nonblock devnull_entry)
   else Some devnull_entry).
Proof.
  intros Hn Hx. unfold child_fds. cbv zeta.
  apply Z.leb_le in Hn. rewrite Hn. apply Z.leb_le in Hn.
  set (t2 := <[null := devnull_entry]> (delete (fd_ cli) t)).
  set (t4 := if STDERR_FILENO <? null then _ else _).
  assert (H2 : t2 !! null = Some devnull_entry) by apply lookup_insert_eq.
  assert (H3 : dup_fd null STDIN_FILENO t2 !! null = Some devnull_entry).
  { destruct (decide (null = STDIN_FILENO)) as [-> | Hne].
    - now apply lookup_dup_fd_eq.
    - now rewrite lookup_dup_fd_ne. }
  assert (H4 : t4 !! x = Some devnull_entry).
  { assert (E : t4 !! x
              = dup_fd null STDOUT_FILENO (dup_fd null STDIN_FILENO t2) !! x).
    { subst t4. destruct (STDERR_FILENO <? null) eqn:El; [| reflexivity].
      apply Z.ltb_lt in El. apply lookup_delete_ne.
      unfold STDERR_FILENO, STDIN_FILENO, STDOUT_FILENO in *. lia. }
    rewrite E. destruct Hx as [-> | ->].
    - rewrite lookup_dup_fd_ne by discriminate. now apply lookup_dup_fd_eq.
    - now apply lookup_dup_fd_eq. }
  assert (H5 : close_all (inherited_targets (fd_ srv)) t4 !! x
               = Some devnull_entry).
  { rewrite lookup_close_all, decide_False; [exact H4 |].
    rewrite elem_of_inherited_targets.
    unfold STDERR_FILENO, STDIN_FILENO, STDOUT_FILENO in *. lia. }
  case_decide as Hs.
  - subst x. now rewrite lookup_alter_eq, H5.
  - now rewrite lookup_alter_ne by congruence.
Qed.
End ChildFdsMore.

(** X8: the scan of the daemon stops at descriptor 512.  Every descriptor
    at or above it that the profiled process had open is inherited by the
    daemon and is still open, referring to the same thing, when the daemon
    enters its event loop. *)
Theorem ForkHeapprofd_child_scan_is_bounded env w cli srv x :
  be_pair env = (cli, srv) →
  sock_valid cli = true →
  sock_valid srv = true →
  be_fork env = 0 →
  kFdCeiling ≤ x →
  x ≠ fd_ cli → x ≠ fd_ srv → x ≠ be_open env →
  fds (snd (ForkHeapprofd env w)) !! x = fds w !! x.
Proof.
  intros Hpair Hc Hs Hf Hx Hxc Hxs Hxn.
  rewrite (ForkHeapprofd_child_path env w cli srv Hpair Hc Hs Hf).
  cbn [snd fds].
  rewrite child_fds_unscanned; try assumption.
  - now apply lookup_pair_fds_other.
  - lia.
  - unfold kFdCeiling, STDIN_FILENO in *. lia.
  - unfold kFdCeiling, STDOUT_FILENO in *. lia.
Qed.

Lemma ForkHeapprofd_child_scan_is_bounded_witness :
  be_pair (boot_env 0) = ({| fd_ := 3 |}, {| fd_ := 4 |})
  ∧ be_fork (boot_env 0) = 0
  ∧ kFdCeiling ≤ 600
  ∧ fds (snd (ForkHeapprofd (boot_env 0) crowded_world)) !! 600
    = Some (inherited_entry 600).
Proof.
  assert (H : kFdCeiling ≤ 600) by (unfold kFdCeiling; lia).
  split; [reflexivity | split; [reflexivity | split; [exact H |]]].
  refine (eq_trans (ForkHeapprofd_child_scan_is_bounded
                      (boot_env 0) crowded_world {| fd_ := 3 |}
                      {| fd_ := 4 |} 600 eq_refl eq_refl eq_refl eq_refl
                      H _ _ _) _); [discriminate .. | reflexivity].
Defined.

(** X9: the daemon does not keep the profiled process's end of the control
    pair.  Whatever its number above standard error, and also when
    [open("/dev/null")] reuses that number, the descriptor is closed when
    the daemon enters its event loop. *)
Theorem ForkHeapprofd_child_drops_client_end env w cli srv :
  be_pair env = (cli, srv) →
  sock_valid cli = true →
  sock_valid srv = true →
  be_fork env = 0 →
  STDERR_FILENO < fd_ cli →
  fd_ cli ≠ fd_ srv →
  fds (snd (ForkHeapprofd env w)) !! fd_ cli = None
  ∧ ∃ pre post,
      new_events w (snd (ForkHeapprofd env w)) =
        pre ++ [Ev_ReleaseFd (fd_ cli); Ev_close (fd_ cli)] ++ post
      ∧ List.filter is_close pre = [].
Proof.
  intros Hpair Hc Hs Hf Hlow Hne. split.
  { rewrite (ForkHeapprofd_child_path env w cli srv Hpair Hc Hs Hf).
    cbn [snd fds]. now apply child_fds_client_end. }
  rewrite new_events_ForkHeapprofd. unfold bootstrap_events.
  rewrite (path_of_child env cli srv Hpair Hc Hs Hf), Hpair. cbn [fst snd].
  exists (prologue env ++ [Ev_fork; Ev_daemon 0 1]). eexists. split.
  - unfold child_redirect. rewrite <- ?app_assoc. cbn [app]. reflexivity.
  - unfold prologue. rewrite !List.filter_app.
    now destruct (fst (be_cmdline env)).
Qed.

Lemma ForkHeapprofd_child_drops_client_end_witness :
  be_pair (boot_env 0) = ({| fd_ := 3 |}, {| fd_ := 4 |})
  ∧ be_fork (boot_env 0) = 0
  ∧ be_open (boot_env 0) = 3
  ∧ fds (snd (ForkHeapprofd (boot_env 0) crowded_world)) !! 3 = None.
Proof.
  split; [reflexivity | split; [reflexivity | split; [reflexivity |]]].
  apply (ForkHeapprofd_child_drops_client_end
           (boot_env 0) crowded_world {| fd_ := 3 |} {| fd_ := 4 |}
           eq_refl eq_refl eq_refl eq_refl); [reflexivity | discriminate].
Defined.

(** X10: the daemon does not check the result of [open("/dev/null")].
    When it fails, [ForkHeapprofd] logs nothing about it and goes on to the
    event loop: both [dup2] calls are made with the failed result, nothing
    is closed for it, and standard input and output stay what the daemon
    inherited from the profiled process. *)
Theorem ForkHeapprofd_child_open_failure env w cli srv :
  be_pair env = (cli, srv) →
  sock_valid cli = true →
  sock_valid srv = true →
  be_fork env = 0 →
  be_open env < 0 →
  fds w !! be_open env = None →
  STDERR_FILENO < fd_ cli →
  STDERR_FILENO < fd_ srv →
  fst (ForkHeapprofd env w) = Ret DaemonEventLoop
  ∧ new_events w (snd (ForkHeapprofd env w)) =
      prologue env
      ++ [Ev_fork; Ev_daemon 0 1; Ev_ReleaseFd (fd_ cli); Ev_close (fd_ cli);
          Ev_open "/dev/null"; Ev_dup2 (be_open env) STDIN_FILENO;
          Ev_dup2 (be_open env) STDOUT_FILENO]
      ++ child_scan srv
      ++ child_service (be_pid env) (snd (be_cmdline env)) srv
  ∧ fds (snd (ForkHeapprofd env w)) !! STDIN_FILENO = fds w !! STDIN_FILENO
  ∧ fds (snd (ForkHeapprofd env w)) !! STDOUT_FILENO
    = fds w !! STDOUT_FILENO.
Proof.
  intros Hpair Hc Hs Hf Hneg Hfree Hlc Hls.
  split; [| split].
  - now rewrite (ForkHeapprofd_child_path env w cli srv Hpair Hc Hs Hf).
  - rewrite new_events_ForkHeapprofd. unfold bootstrap_events.
    rewrite (path_of_child env cli srv Hpair Hc Hs Hf), Hpair.
    cbn [fst snd]. unfold child_redirect.
    replace (STDERR_FILENO <? be_open env) with false
      by (symmetry; apply Z.ltb_ge; unfold STDERR_FILENO; lia).
    rewrite <- ?app_assoc. cbn [app]. reflexivity.
  - rewrite (ForkHeapprofd_child_path env w cli srv Hpair Hc Hs Hf).
    cbn [snd fds].
    unfold STDERR_FILENO, STDIN_FILENO, STDOUT_FILENO in *.
    rewrite child_fds_open_failed;
      [| assumption | rewrite lookup_pair_fds_other by lia; assumption].
    assert (E : ∀ x, x = 0 ∨ x = 1 →
              alter set_nonblock (fd_ srv)
                (close_all (inherited_targets (fd_ srv))
                   (delete (fd_ cli)
                      (pair_fds cli srv (be_pair_nonblock env) (fds w))))
                !! x = fds w !! x).
    { intros x Hx. rewrite lookup_alter_ne by lia.
      rewrite lookup_close_all, decide_False
        by (rewrite elem_of_inherited_targets; unfold STDERR_FILENO; lia).
      rewrite lookup_delete_ne by lia.
      apply lookup_pair_fds_other; lia. }
    split; apply E; lia.
Qed.

Lemma ForkHeapprofd_child_open_failure_witness :
  be_pair (with_open (-1) (boot_env 0)) = ({| fd_ := 3 |}, {| fd_ := 4 |})
  ∧ be_open (with_open (-1) (boot_env 0)) < 0
  ∧ fst (ForkHeapprofd (with_open (-1) (boot_env 0)) crowded_world)
    = Ret DaemonEventLoop
  ∧ fds (snd (ForkHeapprofd (with_open (-1) (boot_env 0)) crowded_world)) !! 0
    = Some (inherited_entry 0).
Proof.
  assert (Hneg : be_open (with_open (-1) (boot_env 0)) < 0) by reflexivity.
  destruct (ForkHeapprofd_child_open_failure
              (with_open (-1) (boot_env 0)) crowded_world
              {| fd_ := 3 |} {| fd_ := 4 |}
              eq_refl eq_refl eq_refl eq_refl Hneg eq_refl eq_refl eq_refl)
    as (Hr & _ & H0 & _).
  split; [reflexivity | split; [exact Hneg | split; [exact Hr |]]].
  refine (eq_trans H0 _). reflexivity.
Defined.

(** X11: the redirect of the daemon does not spare the control socket.
    When the daemon's end of the pair is descriptor 0 or 1 (the profiled
    process ran without standard input or output) and [open] succeeds,
    [dup2] replaces it: the descriptor that [ForkHeapprofd] then makes
    non-blocking and registers with the task runner refers to the null
    device, not to the socket. *)
Theorem ForkHeapprofd_child_redirect_replaces_low_endpoint env w cli srv :
  be_pair env = (cli, srv) →
  sock_valid cli = true →
  sock_valid srv = true →
  be_fork env = 0 →
  0 ≤ be_open env →
  fd_ srv = STDIN_FILENO ∨ fd_ srv = STDOUT_FILENO →
  fds (snd (ForkHeapprofd env w)) !! fd_ srv
  = Some {| of_what := DevNull; of_nonblock := true |}
  ∧ Ev_SetBlocking (fd_ srv) false
    ∈ new_events w (snd (ForkHeapprofd env w))
  ∧ Ev_AddFileDescriptorWatch (fd_ srv)
    ∈ new_events w (snd (ForkHeapprofd env w)).
Proof.
  intros Hpair Hc Hs Hf Hopen Hlow. split.
  { rewrite (ForkHeapprofd_child_path env w cli srv Hpair Hc Hs Hf).
    cbn [snd fds].
    rewrite (child_fds_standard_streams _ _ _ _ _ Hopen Hlow).
    now rewrite decide_True. }
  rewrite new_events_ForkHeapprofd. unfold bootstrap_events.
  rewrite (path_of_child env cli srv Hpair Hc Hs Hf), Hpair. cbn [fst snd].
  unfold child_service.
  split; rewrite !elem_of_app; do 4 right; rewrite !elem_of_cons; tauto.
Qed.

Lemma ForkHeapprofd_child_redirect_replaces_low_endpoint_witness :
  be_pair boot_env_low = ({| fd_ := 0 |}, {| fd_ := 1 |})
  ∧ be_fork boot_env_low = 0
  ∧ fds (snd (ForkHeapprofd boot_env_low stderr_only_world)) !! 1
    = Some {| of_what := DevNull; of_nonblock := true |}.
Proof.
  split; [reflexivity | split; [reflexivity |]].
  apply (ForkHeapprofd_child_redirect_replaces_low_endpoint
           boot_env_low stderr_only_world {| fd_ := 0 |} {| fd_ := 1 |}
           eq_refl eq_refl eq_refl eq_refl);
    [unfold boot_env_low; cbn; lia | now right].
Defined.

(** ** The scan as a whole *)

Lemma scan_targets_filter n : ∀ i keep,
  scan_targets n i keep = filter (λ j, j ≠ keep) (seqZ i (Z.of_nat n)).
Proof.
  induction n as [|n IH]; intros i keep; [reflexivity |].
  cbn [scan_targets]. rewrite IH.
  rewrite (seqZ_cons i (Z.of_nat (S n))) by lia.
  replace (Z.pred (Z.of_nat (S n))) with (Z.of_nat n) by lia.
  replace (Z.succ i) with (i + 1) by lia.
  rewrite filter_cons.
  destruct (i =? keep) eqn:E.
  - apply Z.eqb_eq in E. now rewrite decide_False by tauto.
  - apply Z.eqb_neq in E. now rewrite decide_True.
Qed.

(** X12: the scan [for (i = 3; i < 512; ++i) if (i != keep) close(i)] in
    one piece.  It calls [close] on the numbers 3 to 511 in increasing
    order, each once, leaving out [keep] only, and it does so whether or
    not a number is an open descriptor; afterwards exactly the descriptors
    outside that range, and [keep], are as they were. *)
Theorem close_inherited_closes_the_range keep w :
  fst (close_inherited keep w) = Ret tt
  ∧ new_events w (snd (close_inherited keep w)) =
      map Ev_close (filter (λ i, i ≠ keep) (seqZ 3 509))
  ∧ (∀ x, fds (snd (close_inherited keep w)) !! x =
          if decide (STDERR_FILENO < x < kFdCeiling ∧ x ≠ keep)
          then None else fds w !! x)
  ∧ g_client_sock (snd (close_inherited keep w)) = g_client_sock w
  ∧ threads (snd (close_inherited keep w)) = threads w.
Proof.
  rewrite close_inherited_run. cbn [fst snd].
  rewrite new_events_after. cbn [after fds g_client_sock threads].
  split; [reflexivity | split; [| split; [| split; reflexivity]]].
  - unfold inherited_targets. now rewrite scan_targets_filter.
  - intros x. rewrite lookup_close_all.
    destruct (decide (x ∈ inherited_targets keep)) as [Hin | Hnin].
    + now rewrite decide_True by (now apply elem_of_inherited_targets).
    + now rewrite decide_False
        by (now rewrite <- elem_of_inherited_targets).
Qed.

(** The scan on a table with descriptors 7 and 600 open, sparing 4. *)
Example close_inherited_example :
  fds (snd (close_inherited 4 crowded_world)) !! 7 = None
  ∧ fds (snd (close_inherited 4 crowded_world)) !! 600
    = Some (inherited_entry 600)
  ∧ length (new_events crowded_world (snd (close_inherited 4 crowded_world)))
    = 508%nat.
Proof. repeat split; vm_compute; reflexivity. Qed.
